(** * The automation-config builder of the MongoDB Kubernetes operator

    A shallow embedding of [pkg/automationconfig/automation_config_builder.go]
    and the properties of [Build] that its specification states.

    Conventions of the embedding:
    - Go's [int] is a 64-bit signed integer, carried as a [Z] with the
      wrap-around of [+] written out ([int_add]);
    - Go's [string] is a [string]; [[]byte] is a [list byte];
    - a slice is a [list]; where the source tells [nil] from an empty
      slice (the module list of a build) it is an [option (list _)];
    - a function returning [(T, error)] returns a pair whose second
      component is [None] for Go's [nil] error;
    - a run-time panic is an outcome of its own ([Panics]); memory is not
      bounded: [make] succeeds at every length that is not negative. *)

From stdpp Require Import base numbers list strings pretty gmap.
From Stdlib.Strings Require Import Byte.

Local Open Scope Z_scope.

(** Closes a goal about closed terms by evaluation. *)
Ltac run := vm_compute; first [reflexivity | lia | done].

(** ** Go primitives used by the builder *)

Module GoInt.
Definition min_int : Z := - 2 ^ 63.
Definition max_int : Z := 2 ^ 63 - 1.

(** The value of a mathematical integer once stored in an [int]. *)
Definition wrap (z : Z) : Z := (z + 2 ^ 63) `mod` 2 ^ 64 - 2 ^ 63.

(** [x + y] on [int]. *)
Definition int_add (x y : Z) : Z := wrap (x + y).

Definition in_range (z : Z) : Prop := min_int <= z <= max_int.
End GoInt.

#[global] Instance byte_eq_decision : EqDecision byte := Byte.byte_eq_dec.

(** [bytes.Compare]: lexicographic comparison, result in {-1, 0, 1}. *)
Fixpoint bytes_Compare (a b : list byte) : Z :=
  match a, b with
  | [], [] => 0
  | [], _ :: _ => -1
  | _ :: _, [] => 1
  | x :: a', y :: b' =>
      match N.compare (Byte.to_N x) (Byte.to_N y) with
      | Lt => -1
      | Gt => 1
      | Eq => bytes_Compare a' b'
      end
  end.

(** [fmt.Sprintf] of the verb [%d] at an [int]. *)
Definition fmt_d (i : Z) : string := pretty i.

(** ** Data model

    The struct declarations live in another file of the package; the
    builder fixes the field names it touches, the specification names
    the others. Each struct has a module of its own, so that fields
    read as in Go ([Process.Name], [AutomationConfig.Version]). *)

(** [type SSLMode string], [type ClientCertificateMode string],
    [type Topology string]. *)
Definition SSLMode : Type := string.
Definition ClientCertificateMode : Type := string.
Definition Topology : Type := string.
Definition ReplicaSetTopology : Topology := "ReplicaSet".

Module MongoDBSSL.
Record t : Type := mk {
  Mode : SSLMode;
  CAFile : string;
  PEMKeyFile : string;
  AllowConnectionsWithoutCertificate : bool
}.
(** [MongoDBSSL{}] *)
Definition zero : t := mk "" "" "" false.
End MongoDBSSL.

Module Net.
Record t : Type := mk { SSL : MongoDBSSL.t }.
Definition zero : t := mk MongoDBSSL.zero.
End Net.

Module Args26.
Record t : Type := mk { Net : Net.t }.
Definition zero : t := mk Net.zero.
End Args26.

Module Process.
(** Modelled from the spec: the declaration of [Process] is not part of
    the builder's file. The specification lists its attributes: process
    name, fully-qualified hostname, MongoDB version, logical replica-set
    name, feature-compatibility version, network/TLS arguments. *)
Record t : Type := mk {
  Name : string;
  HostName : string;
  Version : string;
  ReplicaSetName : string;
  FeatureCompatibilityVersion : string;
  Args26 : Args26.t
}.
(** [Process{}] *)
Definition zero : t := mk "" "" "" "" "" Args26.zero.
End Process.

Module ReplicaSetMember.
(** Modelled from the spec: the declaration of [ReplicaSetMember] is not
    part of the builder's file. A member pairs a reference to its process
    (the process name, kept in [Host]) with a numeric member id. *)
Record t : Type := mk {
  Id : Z;
  Host : string
}.
(** [ReplicaSetMember{}] *)
Definition zero : t := mk 0 "".
End ReplicaSetMember.

Module ReplicaSet.
Record t : Type := mk {
  Id : string;
  Members : list ReplicaSetMember.t;
  ProtocolVersion : string
}.
End ReplicaSet.

Module Options.
Record t : Type := mk { DownloadBase : string }.
Definition zero : t := mk "".
End Options.

Module SSL.
Record t : Type := mk {
  ClientCertificateMode : ClientCertificateMode;
  CAFilePath : string
}.
Definition zero : t := mk "" "".
End SSL.

Module BuildConfig.
(** Modelled from the spec: a build variant of a catalog entry carries a
    list of enabled modules; [None] is Go's [nil] slice, [Some []] the
    empty slice made by [make([]string, 0)]. *)
Record t : Type := mk { Modules : option (list string) }.
End BuildConfig.

Module MongoDbVersionConfig.
(** Modelled from the spec: a catalog entry names one installable
    MongoDB version and lists its build variants. *)
Record t : Type := mk {
  Name : string;
  Builds : list BuildConfig.t
}.
End MongoDbVersionConfig.

Module AutomationConfig.
Record t (Auth : Type) : Type := mk {
  Version : Z;
  Processes : list Process.t;
  ReplicaSets : list ReplicaSet.t;
  Versions : list MongoDbVersionConfig.t;
  Options : Options.t;
  Auth : Auth;
  SSL : SSL.t
}.
Arguments mk {Auth} _ _ _ _ _ _ _.
Arguments Version {Auth} _.
Arguments Processes {Auth} _.
Arguments ReplicaSets {Auth} _.
Arguments Versions {Auth} _.
Arguments Options {Auth} _.
Arguments Auth {Auth} _.
Arguments SSL {Auth} _.

(** [ac.Version = v] *)
Definition with_Version {A} (ac : t A) (v : Z) : t A :=
  mk v (Processes ac) (ReplicaSets ac) (Versions ac) (Options ac)
     (Auth ac) (SSL ac).

(** [ac.SSL.CAFilePath = path] *)
Definition with_CAFilePath {A} (ac : t A) (path : string) : t A :=
  mk (Version ac) (Processes ac) (ReplicaSets ac) (Versions ac) (Options ac)
     (Auth ac) (SSL.mk (SSL.ClientCertificateMode (SSL ac)) path).
End AutomationConfig.

(** ** What the builder takes from the rest of the package and from the
    standard library

    The type [Auth] and its values, Go's [error] values, the two
    constants and [encoding/json]'s [Marshal] at [AutomationConfig] are
    not defined in the builder's file: the builder is verified for every
    choice of them. *)
Class Env : Type := {
  Auth : Type;
  error : Type;
  (** [Auth{}] *)
  Auth_zero : Auth;
  (** [DisabledAuth()] *)
  DisabledAuth : Auth;
  SSLModeDisabled : SSLMode;
  ClientCertificateModeOptional : ClientCertificateMode;
  (** [json.Marshal(ac)] *)
  json_Marshal : AutomationConfig.t Auth -> list byte * option error
}.

(** [type Enabler interface { Enable(auth Auth) (Auth, error) }] *)
Record Enabler `{Env} : Type := { Enable : Auth -> Auth * option error }.

Module Builder.
Section Fields.
Context `{Env}.
Record t : Type := mk {
  enabler : option Enabler;
  processes : list Process.t;
  replicaSets : list ReplicaSet.t;
  version : Z;
  auth : Auth;
  members : Z;
  domain : string;
  name : string;
  fcv : string;
  topology : Topology;
  mongodbVersion : string;
  previousAC : AutomationConfig.t Auth;
  tlsCAFile : string;
  tlsCertAndKeyFile : string;
  tlsMode : SSLMode;
  versions : list MongoDbVersionConfig.t
}.
End Fields.
End Builder.

(** What a call of [Build] does: it returns its pair, or it panics. *)
Inductive outcome `{Env} : Type :=
  | Returns (ac : AutomationConfig.t Auth) (err : option error)
  | Panics.

(** ** The builder *)

Section Operations.
Context `{E : Env}.

(** [AutomationConfig{}], the value returned next to an error. *)
Definition AutomationConfig_zero : AutomationConfig.t Auth :=
  AutomationConfig.mk 0 [] [] [] Options.zero Auth_zero SSL.zero.

(** [NewBuilder]: every field not listed in the source holds the zero
    value of its type; the enabler is the [nil] interface. *)
Definition NewBuilder : Builder.t :=
  {|
    Builder.enabler := None;
    Builder.processes := [];
    Builder.replicaSets := [];
    Builder.version := 0;
    Builder.auth := Auth_zero;
    Builder.members := 0;
    Builder.domain := "";
    Builder.name := "";
    Builder.fcv := "";
    Builder.topology := "";
    Builder.mongodbVersion := "";
    Builder.previousAC := AutomationConfig_zero;
    Builder.tlsCAFile := "";
    Builder.tlsCertAndKeyFile := "";
    Builder.tlsMode := "";
    Builder.versions := []
  |}.

(** [b.enabler = enabler] *)
Definition SetEnabler (b : Builder.t) (enabler : Enabler) : Builder.t :=
  {|
    Builder.enabler := Some enabler;
    Builder.processes := Builder.processes b;
    Builder.replicaSets := Builder.replicaSets b;
    Builder.version := Builder.version b;
    Builder.auth := Builder.auth b;
    Builder.members := Builder.members b;
    Builder.domain := Builder.domain b;
    Builder.name := Builder.name b;
    Builder.fcv := Builder.fcv b;
    Builder.topology := Builder.topology b;
    Builder.mongodbVersion := Builder.mongodbVersion b;
    Builder.previousAC := Builder.previousAC b;
    Builder.tlsCAFile := Builder.tlsCAFile b;
    Builder.tlsCertAndKeyFile := Builder.tlsCertAndKeyFile b;
    Builder.tlsMode := Builder.tlsMode b;
    Builder.versions := Builder.versions b
  |}.

(** [b.topology = topology] *)
Definition SetTopology (b : Builder.t) (topology : Topology) : Builder.t :=
  {|
    Builder.enabler := Builder.enabler b;
    Builder.processes := Builder.processes b;
    Builder.replicaSets := Builder.replicaSets b;
    Builder.version := Builder.version b;
    Builder.auth := Builder.auth b;
    Builder.members := Builder.members b;
    Builder.domain := Builder.domain b;
    Builder.name := Builder.name b;
    Builder.fcv := Builder.fcv b;
    Builder.topology := topology;
    Builder.mongodbVersion := Builder.mongodbVersion b;
    Builder.previousAC := Builder.previousAC b;
    Builder.tlsCAFile := Builder.tlsCAFile b;
    Builder.tlsCertAndKeyFile := Builder.tlsCertAndKeyFile b;
    Builder.tlsMode := Builder.tlsMode b;
    Builder.versions := Builder.versions b
  |}.

(** [b.members = members] *)
Definition SetMembers (b : Builder.t) (members : Z) : Builder.t :=
  {|
    Builder.enabler := Builder.enabler b;
    Builder.processes := Builder.processes b;
    Builder.replicaSets := Builder.replicaSets b;
    Builder.version := Builder.version b;
    Builder.auth := Builder.auth b;
    Builder.members := members;
    Builder.domain := Builder.domain b;
    Builder.name := Builder.name b;
    Builder.fcv := Builder.fcv b;
    Builder.topology := Builder.topology b;
    Builder.mongodbVersion := Builder.mongodbVersion b;
    Builder.previousAC := Builder.previousAC b;
    Builder.tlsCAFile := Builder.tlsCAFile b;
    Builder.tlsCertAndKeyFile := Builder.tlsCertAndKeyFile b;
    Builder.tlsMode := Builder.tlsMode b;
    Builder.versions := Builder.versions b
  |}.

(** [b.domain = domain] *)
Definition SetDomain (b : Builder.t) (domain : string) : Builder.t :=
  {|
    Builder.enabler := Builder.enabler b;
    Builder.processes := Builder.processes b;
    Builder.replicaSets := Builder.replicaSets b;
    Builder.version := Builder.version b;
    Builder.auth := Builder.auth b;
    Builder.members := Builder.members b;
    Builder.domain := domain;
    Builder.name := Builder.name b;
    Builder.fcv := Builder.fcv b;
    Builder.topology := Builder.topology b;
    Builder.mongodbVersion := Builder.mongodbVersion b;
    Builder.previousAC := Builder.previousAC b;
    Builder.tlsCAFile := Builder.tlsCAFile b;
    Builder.tlsCertAndKeyFile := Builder.tlsCertAndKeyFile b;
    Builder.tlsMode := Builder.tlsMode b;
    Builder.versions := Builder.versions b
  |}.

(** [b.name = name] *)
Definition SetName (b : Builder.t) (name : string) : Builder.t :=
  {|
    Builder.enabler := Builder.enabler b;
    Builder.processes := Builder.processes b;
    Builder.replicaSets := Builder.replicaSets b;
    Builder.version := Builder.version b;
    Builder.auth := Builder.auth b;
    Builder.members := Builder.members b;
    Builder.domain := Builder.domain b;
    Builder.name := name;
    Builder.fcv := Builder.fcv b;
    Builder.topology := Builder.topology b;
    Builder.mongodbVersion := Builder.mongodbVersion b;
    Builder.previousAC := Builder.previousAC b;
    Builder.tlsCAFile := Builder.tlsCAFile b;
    Builder.tlsCertAndKeyFile := Builder.tlsCertAndKeyFile b;
    Builder.tlsMode := Builder.tlsMode b;
    Builder.versions := Builder.versions b
  |}.

(** [b.fcv = fcv] *)
Definition SetFCV (b : Builder.t) (fcv : string) : Builder.t :=
  {|
    Builder.enabler := Builder.enabler b;
    Builder.processes := Builder.processes b;
    Builder.replicaSets := Builder.replicaSets b;
    Builder.version := Builder.version b;
    Builder.auth := Builder.auth b;
    Builder.members := Builder.members b;
    Builder.domain := Builder.domain b;
    Builder.name := Builder.name b;
    Builder.fcv := fcv;
    Builder.topology := Builder.topology b;
    Builder.mongodbVersion := Builder.mongodbVersion b;
    Builder.previousAC := Builder.previousAC b;
    Builder.tlsCAFile := Builder.tlsCAFile b;
    Builder.tlsCertAndKeyFile := Builder.tlsCertAndKeyFile b;
    Builder.tlsMode := Builder.tlsMode b;
    Builder.versions := Builder.versions b
  |}.

(** [b.tlsCAFile = caFile; b.tlsCertAndKeyFile = certAndKeyFile; b.tlsMode = mode] *)
Definition SetTLS (b : Builder.t) (caFile certAndKeyFile : string) (mode : SSLMode) : Builder.t :=
  {|
    Builder.enabler := Builder.enabler b;
    Builder.processes := Builder.processes b;
    Builder.replicaSets := Builder.replicaSets b;
    Builder.version := Builder.version b;
    Builder.auth := Builder.auth b;
    Builder.members := Builder.members b;
    Builder.domain := Builder.domain b;
    Builder.name := Builder.name b;
    Builder.fcv := Builder.fcv b;
    Builder.topology := Builder.topology b;
    Builder.mongodbVersion := Builder.mongodbVersion b;
    Builder.previousAC := Builder.previousAC b;
    Builder.tlsCAFile := caFile;
    Builder.tlsCertAndKeyFile := certAndKeyFile;
    Builder.tlsMode := mode;
    Builder.versions := Builder.versions b
  |}.

(** [isTLSEnabled] *)
Definition isTLSEnabled (b : Builder.t) : bool :=
  bool_decide (Builder.tlsCAFile b <> "")
  && bool_decide (Builder.tlsCertAndKeyFile b <> "")
  && bool_decide (Builder.tlsMode b <> SSLModeDisabled).

(** The body of the loop of [AddVersion] at index [idx]:
    [if version.Builds[idx].Modules == nil { ... = make([]string, 0) }]. *)
Definition AddVersion_step (builds : list BuildConfig.t) (idx : nat)
  : list BuildConfig.t :=
  match builds !! idx with
  | Some build =>
      match BuildConfig.Modules build with
      | None => <[idx := BuildConfig.mk (Some [])]> builds
      | Some _ => builds
      end
  | None => builds
  end.

(** [for idx := range version.Builds { ... }] *)
Definition AddVersion_normalize (version : MongoDbVersionConfig.t)
  : MongoDbVersionConfig.t :=
  MongoDbVersionConfig.mk
    (MongoDbVersionConfig.Name version)
    (foldl AddVersion_step (MongoDbVersionConfig.Builds version)
           (seq 0 (length (MongoDbVersionConfig.Builds version)))).

(** [b.versions = append(b.versions, version)], after the loop over [version.Builds] *)
Definition AddVersion (b : Builder.t) (version : MongoDbVersionConfig.t) : Builder.t :=
  {|
    Builder.enabler := Builder.enabler b;
    Builder.processes := Builder.processes b;
    Builder.replicaSets := Builder.replicaSets b;
    Builder.version := Builder.version b;
    Builder.auth := Builder.auth b;
    Builder.members := Builder.members b;
    Builder.domain := Builder.domain b;
    Builder.name := Builder.name b;
    Builder.fcv := Builder.fcv b;
    Builder.topology := Builder.topology b;
    Builder.mongodbVersion := Builder.mongodbVersion b;
    Builder.previousAC := Builder.previousAC b;
    Builder.tlsCAFile := Builder.tlsCAFile b;
    Builder.tlsCertAndKeyFile := Builder.tlsCertAndKeyFile b;
    Builder.tlsMode := Builder.tlsMode b;
    Builder.versions := Builder.versions b ++ [AddVersion_normalize version]
  |}.

(** [b.mongodbVersion = version] *)
Definition SetMongoDBVersion (b : Builder.t) (version : string) : Builder.t :=
  {|
    Builder.enabler := Builder.enabler b;
    Builder.processes := Builder.processes b;
    Builder.replicaSets := Builder.replicaSets b;
    Builder.version := Builder.version b;
    Builder.auth := Builder.auth b;
    Builder.members := Builder.members b;
    Builder.domain := Builder.domain b;
    Builder.name := Builder.name b;
    Builder.fcv := Builder.fcv b;
    Builder.topology := Builder.topology b;
    Builder.mongodbVersion := version;
    Builder.previousAC := Builder.previousAC b;
    Builder.tlsCAFile := Builder.tlsCAFile b;
    Builder.tlsCertAndKeyFile := Builder.tlsCertAndKeyFile b;
    Builder.tlsMode := Builder.tlsMode b;
    Builder.versions := Builder.versions b
  |}.

(** [b.previousAC = previousAC] *)
Definition SetPreviousAutomationConfig (b : Builder.t) (previousAC : AutomationConfig.t Auth) : Builder.t :=
  {|
    Builder.enabler := Builder.enabler b;
    Builder.processes := Builder.processes b;
    Builder.replicaSets := Builder.replicaSets b;
    Builder.version := Builder.version b;
    Builder.auth := Builder.auth b;
    Builder.members := Builder.members b;
    Builder.domain := Builder.domain b;
    Builder.name := Builder.name b;
    Builder.fcv := Builder.fcv b;
    Builder.topology := Builder.topology b;
    Builder.mongodbVersion := Builder.mongodbVersion b;
    Builder.previousAC := previousAC;
    Builder.tlsCAFile := Builder.tlsCAFile b;
    Builder.tlsCertAndKeyFile := Builder.tlsCertAndKeyFile b;
    Builder.tlsMode := Builder.tlsMode b;
    Builder.versions := Builder.versions b
  |}.

(** [toHostName] *)
Definition toHostName (name : string) (index : Z) : string :=
  name +:+ "-" +:+ fmt_d index.

(** [withFCV] *)
Definition withFCV (fcv : string) : Process.t -> Process.t :=
  fun process =>
    Process.mk (Process.Name process) (Process.HostName process)
               (Process.Version process) (Process.ReplicaSetName process)
               fcv (Process.Args26 process).

(** [withTLS]: the whole [Args26.Net.SSL] block is overwritten. *)
Definition withTLS (caFile tlsKeyFile : string) (mode : SSLMode)
  : Process.t -> Process.t :=
  fun process =>
    Process.mk (Process.Name process) (Process.HostName process)
               (Process.Version process) (Process.ReplicaSetName process)
               (Process.FeatureCompatibilityVersion process)
               (Args26.mk (Net.mk (MongoDBSSL.mk mode caFile tlsKeyFile true))).

(** Modelled from the spec: [newProcess] is defined in another file of
    the package. It makes a fresh process from the process name, the
    hostname, the MongoDB version and the replica-set name, and applies
    the options to it in the order given. *)
Definition newProcess (name hostName version replSetName : string)
    (opts : list (Process.t -> Process.t)) : Process.t :=
  foldl (fun p opt => opt p)
        (Process.mk name hostName version replSetName "" Args26.zero)
        opts.

(** Modelled from the spec: [newReplicaSetMember] is defined in another
    file of the package. The member refers to its process by the process
    name and carries the id it is given. *)
Definition newReplicaSetMember (p : Process.t) (id : Z) : ReplicaSetMember.t :=
  ReplicaSetMember.mk id (Process.Name p).

(** [for i, x := range l { body }], threading the state of the body. *)
Definition for_range {A S : Type} (l : list A) (body : Z -> A -> S -> S)
    (s : S) : S :=
  foldl (fun s ix => body ix.1 ix.2 s) s (zip (seqZ 0 (Z.of_nat (length l))) l).

(** First loop of [Build]: [hostnames[i] = fmt.Sprintf("%s-%d.%s", ...)]
    for [i] from [0] while [i < b.members], on [make([]string, b.members)]. *)
Definition Build_hostnames (b : Builder.t) : list string :=
  foldl (fun hostnames i =>
           <[Z.to_nat i :=
               Builder.name b +:+ "-" +:+ fmt_d i +:+ "." +:+ Builder.domain b]>
             hostnames)
        (replicate (Z.to_nat (Builder.members b)) "")
        (seqZ 0 (Builder.members b)).

(** The options of one process. *)
Definition Build_opts (b : Builder.t) : list (Process.t -> Process.t) :=
  let opts := [withFCV (Builder.fcv b)] in
  if isTLSEnabled b
  then opts ++ [withTLS (Builder.tlsCAFile b) (Builder.tlsCertAndKeyFile b)
                        (Builder.tlsMode b)]
  else opts.

(** The body of the second loop of [Build]. *)
Definition Build_body (b : Builder.t) (i : Z) (h : string)
    (s : list ReplicaSetMember.t * list Process.t)
  : list ReplicaSetMember.t * list Process.t :=
  let '(members, processes) := s in
  let opts := Build_opts b in
  let process :=
    newProcess (toHostName (Builder.name b) i) h (Builder.mongodbVersion b)
               (Builder.name b) opts in
  let processes := <[Z.to_nat i := process]> processes in
  let members := <[Z.to_nat i := newReplicaSetMember process i]> members in
  (members, processes).

(** Second loop of [Build], on [make([]ReplicaSetMember, b.members)] and
    [make([]Process, b.members)]. *)
Definition Build_members_processes (b : Builder.t)
  : list ReplicaSetMember.t * list Process.t :=
  for_range (Build_hostnames b) (Build_body b)
    (replicate (Z.to_nat (Builder.members b)) ReplicaSetMember.zero,
     replicate (Z.to_nat (Builder.members b)) Process.zero).

(** [currentAc] as it stands just before the two calls of [json.Marshal]. *)
Definition Build_currentAc (b : Builder.t) (auth : Auth)
  : AutomationConfig.t Auth :=
  let '(members, processes) := Build_members_processes b in
  let currentAc :=
    AutomationConfig.mk
      (AutomationConfig.Version (Builder.previousAC b))
      processes
      [ReplicaSet.mk (Builder.name b) members "1"]
      (Builder.versions b)
      (Options.mk "/var/lib/mongodb-mms-automation")
      auth
      (SSL.mk ClientCertificateModeOptional "") in
  if isTLSEnabled b
  then AutomationConfig.with_CAFilePath currentAc (Builder.tlsCAFile b)
  else currentAc.

(** [Build]. [make] panics on a negative length, and so does the call of
    [Enable] on a [nil] interface. *)
Definition Build (b : Builder.t) : outcome :=
  if decide (Builder.members b < 0) then Panics
  else
    match Builder.enabler b with
    | None => Panics
    | Some enabler =>
        let '(auth, err) := Enable enabler DisabledAuth in
        match err with
        | Some e => Returns AutomationConfig_zero (Some e)
        | None =>
            let currentAc := Build_currentAc b auth in
            let '(newAcBytes, err) := json_Marshal (Builder.previousAC b) in
            match err with
            | Some e => Returns AutomationConfig_zero (Some e)
            | None =>
                let '(currentAcBytes, err) := json_Marshal currentAc in
                match err with
                | Some e => Returns AutomationConfig_zero (Some e)
                | None =>
                    if decide (bytes_Compare newAcBytes currentAcBytes <> 0)
                    then Returns
                           (AutomationConfig.with_Version currentAc
                              (GoInt.int_add
                                 (AutomationConfig.Version currentAc) 1))
                           None
                    else Returns currentAc None
                end
            end
        end
    end.

End Operations.

(** ** Closed forms of what the two loops of [Build] compute *)

Section ClosedForms.
Context `{E : Env}.

(** The process the body of the second loop makes at index [i] from the
    hostname [h]. *)
Definition body_process (b : Builder.t) (i : nat) (h : string) : Process.t :=
  newProcess (toHostName (Builder.name b) (Z.of_nat i)) h
             (Builder.mongodbVersion b) (Builder.name b) (Build_opts b).

(** The hostname written at index [i]. *)
Definition hostname_at (b : Builder.t) (i : Z) : string :=
  Builder.name b +:+ "-" +:+ fmt_d i +:+ "." +:+ Builder.domain b.

(** The process written at index [i]. *)
Definition process_at (b : Builder.t) (i : Z) : Process.t :=
  newProcess (toHostName (Builder.name b) i) (hostname_at b i)
             (Builder.mongodbVersion b) (Builder.name b) (Build_opts b).

(** The member written at index [i]. *)
Definition member_at (b : Builder.t) (i : Z) : ReplicaSetMember.t :=
  newReplicaSetMember (process_at b i) i.

(** The three facets of [SetTLS] that [isTLSEnabled] asks for. *)
Definition tls_fully_enabled (b : Builder.t) : Prop :=
  Builder.tlsCAFile b <> ""
  /\ Builder.tlsCertAndKeyFile b <> ""
  /\ Builder.tlsMode b <> SSLModeDisabled.

(** The TLS block [withTLS] writes for this builder. *)
Definition tls_block (b : Builder.t) : MongoDBSSL.t :=
  MongoDBSSL.mk (Builder.tlsMode b) (Builder.tlsCAFile b)
                (Builder.tlsCertAndKeyFile b) true.

(** A module list is set when it is not Go's [nil]. *)
Definition modules_set (build : BuildConfig.t) : Prop :=
  BuildConfig.Modules build <> None.

(** What [AddVersion] leaves at an index of [version.Builds]. *)
Definition AddVersion_stored (build : BuildConfig.t) : BuildConfig.t :=
  match BuildConfig.Modules build with
  | None => BuildConfig.mk (Some [])
  | Some _ => build
  end.

(** Every build of every catalog entry has its module list set. *)
Definition catalog_modules_set (versions : list MongoDbVersionConfig.t) : Prop :=
  Forall (fun version => Forall modules_set (MongoDbVersionConfig.Builds version))
         versions.

(** A run of [Build] that reaches its last statement: the length given
    to [make] is not negative, the enabler yields [auth] and a [nil] error,
    and the two calls of [json.Marshal] yield [newAcBytes] and
    [currentAcBytes] and a [nil] error. *)
Definition Build_run (b : Builder.t) (auth : Auth)
    (newAcBytes currentAcBytes : list byte) : Prop :=
  0 <= Builder.members b
  /\ (exists enabler, Builder.enabler b = Some enabler
                      /\ Enable enabler DisabledAuth = (auth, None))
  /\ json_Marshal (Builder.previousAC b) = (newAcBytes, None)
  /\ json_Marshal (Build_currentAc b auth) = (currentAcBytes, None).

(** [json.Marshal] does not fail on account of the value of the [int]
    field [Version]. *)
Definition Marshal_total_in_Version : Prop :=
  forall (ac : AutomationConfig.t Auth) (v : Z),
    (json_Marshal ac).2 = None ->
    (json_Marshal (AutomationConfig.with_Version ac v)).2 = None.

(** *** Chains of setter calls, starting from [NewBuilder] *)

Inductive call : Type :=
  | CallSetEnabler (enabler : Enabler)
  | CallSetTopology (topology : Topology)
  | CallSetMembers (members : Z)
  | CallSetDomain (domain : string)
  | CallSetName (name : string)
  | CallSetFCV (fcv : string)
  | CallSetTLS (caFile certAndKeyFile : string) (mode : SSLMode)
  | CallAddVersion (version : MongoDbVersionConfig.t)
  | CallSetMongoDBVersion (version : string)
  | CallSetPreviousAutomationConfig (previousAC : AutomationConfig.t Auth).

Definition run_call (b : Builder.t) (c : call) : Builder.t :=
  match c with
  | CallSetEnabler enabler => SetEnabler b enabler
  | CallSetTopology topology => SetTopology b topology
  | CallSetMembers members => SetMembers b members
  | CallSetDomain domain => SetDomain b domain
  | CallSetName name => SetName b name
  | CallSetFCV fcv => SetFCV b fcv
  | CallSetTLS caFile certAndKeyFile mode => SetTLS b caFile certAndKeyFile mode
  | CallAddVersion version => AddVersion b version
  | CallSetMongoDBVersion version => SetMongoDBVersion b version
  | CallSetPreviousAutomationConfig previousAC =>
      SetPreviousAutomationConfig b previousAC
  end.

(** [NewBuilder().c1(...).c2(...)...] *)
Definition chain (cs : list call) : Builder.t := foldl run_call NewBuilder cs.

(** The setter a call names. *)
Inductive setter : Type :=
  | OfSetEnabler | OfSetTopology | OfSetMembers | OfSetDomain | OfSetName
  | OfSetFCV | OfSetTLS | OfAddVersion | OfSetMongoDBVersion
  | OfSetPreviousAutomationConfig.

Definition setter_of (c : call) : setter :=
  match c with
  | CallSetEnabler _ => OfSetEnabler
  | CallSetTopology _ => OfSetTopology
  | CallSetMembers _ => OfSetMembers
  | CallSetDomain _ => OfSetDomain
  | CallSetName _ => OfSetName
  | CallSetFCV _ => OfSetFCV
  | CallSetTLS _ _ _ => OfSetTLS
  | CallAddVersion _ => OfAddVersion
  | CallSetMongoDBVersion _ => OfSetMongoDBVersion
  | CallSetPreviousAutomationConfig _ => OfSetPreviousAutomationConfig
  end.

(** The catalog entries a chain passes to [AddVersion], in call order. *)
Definition added_versions (cs : list call) : list MongoDbVersionConfig.t :=
  omap (fun c => match c with
                 | CallAddVersion version => Some version
                 | _ => None
                 end) cs.

(** The fields of the builder that [Build] reads. *)
Definition same_Build_inputs (b1 b2 : Builder.t) : Prop :=
  Builder.enabler b1 = Builder.enabler b2
  /\ Builder.members b1 = Builder.members b2
  /\ Builder.domain b1 = Builder.domain b2
  /\ Builder.name b1 = Builder.name b2
  /\ Builder.fcv b1 = Builder.fcv b2
  /\ Builder.mongodbVersion b1 = Builder.mongodbVersion b2
  /\ Builder.previousAC b1 = Builder.previousAC b2
  /\ Builder.tlsCAFile b1 = Builder.tlsCAFile b2
  /\ Builder.tlsCertAndKeyFile b1 = Builder.tlsCertAndKeyFile b2
  /\ Builder.tlsMode b1 = Builder.tlsMode b2
  /\ Builder.versions b1 = Builder.versions b2.

(** The options of one process, applied in the order of the list. *)
Definition apply_opts (opts : list (Process.t -> Process.t)) (p : Process.t)
  : Process.t :=
  foldl (fun p opt => opt p) p opts.

End ClosedForms.

(** ** [AddVersion] and the slice it is given

    [AddVersion] takes [version] by value, but [version.Builds] is a slice:
    the copy shares its array with the caller's value, and with every
    other catalog entry made from the same slice. Here a slice is [nil]
    or the address of its array in a store, and covers the whole array. *)

Module Shared.

Definition addr : Type := nat.
Definition store : Type := gmap addr (list BuildConfig.t).

(** A [MongoDbVersionConfig] whose [Builds] is a slice into the store. *)
Record entry : Type := mk_entry {
  Name : string;
  Builds : option addr
}.

(** The builds a slice holds in a store. *)
Definition builds_of (h : store) (s : option addr) : list BuildConfig.t :=
  match s with
  | Some a => default [] (h !! a)
  | None => []
  end.

(** The value of an entry in a store. *)
Definition value (h : store) (e : entry) : MongoDbVersionConfig.t :=
  MongoDbVersionConfig.mk (Name e) (builds_of h (Builds e)).

(** [for idx := range version.Builds { ... }], written through the slice;
    the range over a [nil] slice has no iteration. *)
Definition AddVersion_loop (h : store) (version : entry) : store :=
  match Builds version with
  | Some a =>
      match h !! a with
      | Some builds =>
          <[a := foldl AddVersion_step builds (seq 0 (length builds))]> h
      | None => h
      end
  | None => h
  end.

(** [AddVersion] on the store and on [b.versions]. *)
Definition AddVersion (h : store) (versions : list entry) (version : entry)
  : store * list entry :=
  (AddVersion_loop h version, versions ++ [version]).

(** Every slice of the catalog has its array in the store. *)
Definition allocated (h : store) (versions : list entry) : Prop :=
  forall e a, e ∈ versions -> Builds e = Some a -> is_Some (h !! a).

End Shared.

(** ** A concrete environment, to run the builder on examples

    Authentication is reduced to its [Disabled] flag, errors are messages,
    and the serialization writes every field in declaration order. *)

Module Sample.

Definition enc_list {A : Type} (enc : A -> string) (l : list A) : string :=
  "[" +:+ String.concat "," (enc <$> l) +:+ "]".

Definition enc_bool (x : bool) : string := if x then "true" else "false".

Definition enc_tls (s : MongoDBSSL.t) : string :=
  "{mode:" +:+ MongoDBSSL.Mode s +:+ ",CAFile:" +:+ MongoDBSSL.CAFile s
  +:+ ",PEMKeyFile:" +:+ MongoDBSSL.PEMKeyFile s
  +:+ ",allowConnectionsWithoutCertificates:"
  +:+ enc_bool (MongoDBSSL.AllowConnectionsWithoutCertificate s) +:+ "}".

Definition enc_process (p : Process.t) : string :=
  "{name:" +:+ Process.Name p +:+ ",hostname:" +:+ Process.HostName p
  +:+ ",version:" +:+ Process.Version p
  +:+ ",replSetName:" +:+ Process.ReplicaSetName p
  +:+ ",featureCompatibilityVersion:"
  +:+ Process.FeatureCompatibilityVersion p
  +:+ ",ssl:" +:+ enc_tls (Net.SSL (Args26.Net (Process.Args26 p))) +:+ "}".

Definition enc_member (m : ReplicaSetMember.t) : string :=
  "{_id:" +:+ fmt_d (ReplicaSetMember.Id m)
  +:+ ",host:" +:+ ReplicaSetMember.Host m +:+ "}".

Definition enc_replicaSet (rs : ReplicaSet.t) : string :=
  "{_id:" +:+ ReplicaSet.Id rs
  +:+ ",members:" +:+ enc_list enc_member (ReplicaSet.Members rs)
  +:+ ",protocolVersion:" +:+ ReplicaSet.ProtocolVersion rs +:+ "}".

Definition enc_build (build : BuildConfig.t) : string :=
  match BuildConfig.Modules build with
  | None => "{modules:null}"
  | Some ms => "{modules:" +:+ enc_list id ms +:+ "}"
  end.

Definition enc_version (v : MongoDbVersionConfig.t) : string :=
  "{name:" +:+ MongoDbVersionConfig.Name v
  +:+ ",builds:" +:+ enc_list enc_build (MongoDbVersionConfig.Builds v)
  +:+ "}".

Definition enc_config (ac : AutomationConfig.t bool) : string :=
  "{version:" +:+ fmt_d (AutomationConfig.Version ac)
  +:+ ",processes:" +:+ enc_list enc_process (AutomationConfig.Processes ac)
  +:+ ",replicaSets:"
  +:+ enc_list enc_replicaSet (AutomationConfig.ReplicaSets ac)
  +:+ ",mongoDbVersions:"
  +:+ enc_list enc_version (AutomationConfig.Versions ac)
  +:+ ",options:{downloadBase:"
  +:+ Options.DownloadBase (AutomationConfig.Options ac)
  +:+ "},auth:{disabled:" +:+ enc_bool (AutomationConfig.Auth ac)
  +:+ "},ssl:{clientCertificateMode:"
  +:+ SSL.ClientCertificateMode (AutomationConfig.SSL ac)
  +:+ ",CAFilePath:" +:+ SSL.CAFilePath (AutomationConfig.SSL ac) +:+ "}}".

Definition env : Env :=
  {|
    Auth := bool;
    error := string;
    Auth_zero := false;
    DisabledAuth := true;
    SSLModeDisabled := "disabled";
    ClientCertificateModeOptional := "Optional";
    json_Marshal := fun ac => (String.list_byte_of_string (enc_config ac), None)
  |}.

#[local] Existing Instance env.

(** An enabler that leaves authentication disabled. *)
Definition keepDisabled : Enabler := {| Enable := fun auth => (auth, None) |}.

(** An enabler that fails. *)
Definition failing : Enabler :=
  {| Enable := fun _ => (false, Some "auth policy is misconfigured") |}.

(** The builder of the specification's scenarios: three members named
    [rs0] in [svc.local], TLS off, authentication disabled. *)
Definition rs0 : Builder.t :=
  chain [CallSetEnabler keepDisabled; CallSetTopology ReplicaSetTopology;
         CallSetMembers 3; CallSetName "rs0"; CallSetDomain "svc.local";
         CallSetFCV "4.2"; CallSetMongoDBVersion "4.2.6";
         CallAddVersion
           (MongoDbVersionConfig.mk "4.2.6"
              [BuildConfig.mk None; BuildConfig.mk (Some ["enterprise"])])].

(** The document [Build] returns, if it returns. *)
Definition built (b : Builder.t) : AutomationConfig.t bool :=
  match Build b with
  | Returns ac _ => ac
  | Panics => AutomationConfig_zero
  end.

(** The document of a first build from [rs0]. *)
Definition rs0_doc : AutomationConfig.t bool := built rs0.

(** The previous document of the scenarios: that of [rs0], at version 5. *)
Definition rs0_v5 : AutomationConfig.t bool :=
  AutomationConfig.with_Version rs0_doc 5.

(** A rebuild with the parameters unchanged. *)
Definition rs0_again : Builder.t := SetPreviousAutomationConfig rs0 rs0_v5.

(** A rebuild once TLS is switched on. *)
Definition rs0_tls : Builder.t :=
  SetTLS rs0_again "/ca.pem" "/server.pem" "requireSSL".

(** A rebuild with a fourth member. *)
Definition rs0_four : Builder.t := SetMembers rs0_again 4.

(** A rebuild with a failing enabler. *)
Definition rs0_failing : Builder.t := SetEnabler rs0_again failing.

(** A previous document whose version is the largest [int]. *)
Definition rs0_last : Builder.t :=
  SetPreviousAutomationConfig rs0_tls
    (AutomationConfig.with_Version rs0_doc GoInt.max_int).

(** Two previous documents that differ in a module list and are
    serialized alike by the sample serialization. *)
Definition rs0_comma : AutomationConfig.t bool :=
  AutomationConfig.mk 5 [] [] 
    [MongoDbVersionConfig.mk "4.2.6" [BuildConfig.mk (Some ["a,b"])]]
    Options.zero true SSL.zero.

Definition rs0_split : AutomationConfig.t bool :=
  AutomationConfig.mk 5 [] []
    [MongoDbVersionConfig.mk "4.2.6" [BuildConfig.mk (Some ["a"; "b"])]]
    Options.zero true SSL.zero.

(** A store that holds the array of builds of the catalog entry of
    [rs0], as [AddVersion] left it. *)
Definition heap : Shared.store :=
  {[ 0%nat := [BuildConfig.mk (Some []); BuildConfig.mk (Some ["enterprise"])] ]}.

End Sample.

(** ** Properties of the primitives *)

Lemma int_add_1_no_overflow (v : Z) :
  GoInt.min_int <= v < GoInt.max_int -> GoInt.int_add v 1 = v + 1.
Proof.
  unfold GoInt.int_add, GoInt.wrap, GoInt.min_int, GoInt.max_int.
  intros Hv. rewrite Z.mod_small; lia.
Qed.

Lemma int_add_1_overflow : GoInt.int_add GoInt.max_int 1 = GoInt.min_int.
Proof. reflexivity. Qed.

Lemma int_add_in_range (x y : Z) : GoInt.in_range (GoInt.int_add x y).
Proof.
  unfold GoInt.in_range, GoInt.int_add, GoInt.wrap, GoInt.min_int, GoInt.max_int.
  pose proof (Z.mod_pos_bound (x + y + 2 ^ 63) (2 ^ 64)). lia.
Qed.

Lemma byte_to_N_inj (x y : byte) : Byte.to_N x = Byte.to_N y -> x = y.
Proof.
  intros Hxy. pose proof (Byte.of_to_N x) as Hx.
  rewrite Hxy, Byte.of_to_N in Hx. congruence.
Qed.

Lemma bytes_Compare_refl (a : list byte) : bytes_Compare a a = 0.
Proof.
  induction a as [|x a IH]; simpl; [done|].
  by rewrite N.compare_refl.
Qed.

(** [bytes.Compare(a, b) != 0] says that the two slices differ. *)
Lemma bytes_Compare_eq_0 (a b : list byte) : bytes_Compare a b = 0 <-> a = b.
Proof.
  split; [|intros ->; apply bytes_Compare_refl].
  revert b. induction a as [|x a IH]; intros [|y b]; simpl; try done.
  destruct (N.compare (to_N x) (to_N y)) eqn:Hc; try done.
  intros Hab. apply N.compare_eq in Hc. apply byte_to_N_inj in Hc.
  f_equal; auto.
Qed.

(** [%d] renders distinct integers differently. *)
Lemma fmt_d_inj (i j : Z) : fmt_d i = fmt_d j -> i = j.
Proof. unfold fmt_d. apply (inj pretty). Qed.

Lemma toHostName_inj (name : string) (i j : Z) :
  toHostName name i = toHostName name j -> i = j.
Proof.
  unfold toHostName. intros Hij.
  apply String.app_inj in Hij. apply String.app_inj in Hij.
  by apply fmt_d_inj.
Qed.

(** ** Arrays filled by index *)

Section Loops.
Context {A B : Type}.

(** Writing [f i] at every index [i] below [k] of an array of [n] slots. *)
Lemma foldl_insert_seqZ_prefix (f : Z -> B) (d : B) (n k : nat) :
  (k <= n)%nat ->
  foldl (fun l i => <[Z.to_nat i := f i]> l) (replicate n d)
        (seqZ 0 (Z.of_nat k))
  = (f <$> seqZ 0 (Z.of_nat k)) ++ replicate (n - k) d.
Proof.
  induction k as [|k IH]; intros Hk.
  - simpl. by rewrite Nat.sub_0_r.
  - rewrite seqZ_S, foldl_app, IH by lia. simpl.
    rewrite Z.add_0_l, Nat2Z.id, fmap_app. simpl.
    rewrite insert_app_r_alt by (rewrite length_fmap, length_seqZ; lia).
    rewrite length_fmap, length_seqZ, Nat2Z.id, Nat.sub_diag.
    replace (n - k)%nat with (S (n - S k)) by lia. simpl.
    by rewrite <- (assoc_L (++)).
Qed.

Lemma foldl_insert_seqZ (f : Z -> B) (d : B) (n : Z) :
  foldl (fun l i => <[Z.to_nat i := f i]> l) (replicate (Z.to_nat n) d)
        (seqZ 0 n)
  = f <$> seqZ 0 n.
Proof.
  destruct (decide (n < 0)) as [Hn|Hn].
  - rewrite seqZ_nil by lia. by replace (Z.to_nat n) with 0%nat by lia.
  - replace n with (Z.of_nat (Z.to_nat n)) at 2 3 by lia.
    rewrite foldl_insert_seqZ_prefix by lia.
    rewrite Nat.sub_diag. simpl. by rewrite (right_id_L [] (++)).
Qed.

Lemma for_range_snoc {S : Type} (l : list A) (x : A)
    (body : Z -> A -> S -> S) (s : S) :
  for_range (l ++ [x]) body s
  = body (Z.of_nat (length l)) x (for_range l body s).
Proof.
  unfold for_range. rewrite length_app. simpl.
  rewrite Nat.add_1_r, seqZ_S, Z.add_0_l.
  rewrite zip_with_app by (by rewrite length_seqZ, Nat2Z.id).
  by rewrite foldl_app.
Qed.

End Loops.

(** ** The two loops of [Build] *)

Section BuildLoops.
Context `{E : Env}.

Lemma Build_hostnames_eq (b : Builder.t) :
  Build_hostnames b = hostname_at b <$> seqZ 0 (Builder.members b).
Proof. apply (foldl_insert_seqZ (hostname_at b)). Qed.

Lemma length_Build_hostnames (b : Builder.t) :
  length (Build_hostnames b) = Z.to_nat (Builder.members b).
Proof. by rewrite Build_hostnames_eq, length_fmap, length_seqZ. Qed.

Lemma for_range_Build_body (b : Builder.t) (l : list string)
    (ms : list ReplicaSetMember.t) (ps : list Process.t) :
  (length l <= length ms)%nat ->
  (length l <= length ps)%nat ->
  for_range l (Build_body b) (ms, ps)
  = (imap (fun i h => newReplicaSetMember (body_process b i h) (Z.of_nat i)) l
       ++ drop (length l) ms,
     imap (body_process b) l ++ drop (length l) ps).
Proof.
  induction l as [|h l IH] using rev_ind; intros Hms Hps.
  - done.
  - rewrite length_app in Hms, Hps. simpl in Hms, Hps.
    rewrite for_range_snoc, IH by lia. unfold Build_body at 1.
    rewrite Nat2Z.id, !imap_app, length_app. simpl.
    rewrite Nat.add_0_r, <- !(assoc_L (++)). simpl.
    destruct (lookup_lt_is_Some_2 ms (length l)) as [m Hm]; [lia|].
    destruct (lookup_lt_is_Some_2 ps (length l)) as [p Hp]; [lia|].
    rewrite (drop_S ms m (length l)), (drop_S ps p (length l)) by done.
    rewrite !insert_app_r_alt by (rewrite length_imap; lia).
    rewrite !length_imap, Nat.sub_diag, Nat.add_1_r. done.
Qed.

Lemma Build_members_processes_eq (b : Builder.t) :
  Build_members_processes b
  = (member_at b <$> seqZ 0 (Builder.members b),
     process_at b <$> seqZ 0 (Builder.members b)).
Proof.
  unfold Build_members_processes.
  rewrite for_range_Build_body
    by (rewrite length_Build_hostnames, length_replicate; lia).
  rewrite !drop_ge, !(right_id_L [] (++))
    by (rewrite length_Build_hostnames, length_replicate; lia).
  rewrite Build_hostnames_eq. f_equal.
  - apply list_eq; intros i.
    rewrite list_lookup_imap, !list_lookup_fmap.
    destruct (seqZ 0 (Builder.members b) !! i) as [j|] eqn:Hj; [|done].
    apply lookup_seqZ in Hj as [-> _]. by rewrite Z.add_0_l.
  - apply list_eq; intros i.
    rewrite list_lookup_imap, !list_lookup_fmap.
    destruct (seqZ 0 (Builder.members b) !! i) as [j|] eqn:Hj; [|done].
    apply lookup_seqZ in Hj as [-> _]. by rewrite Z.add_0_l.
Qed.

(** Every write of the two loops is in range: the slices keep the length
    [make] gave them. *)
Lemma length_Build_members_processes (b : Builder.t) :
  length (Build_members_processes b).1 = Z.to_nat (Builder.members b)
  /\ length (Build_members_processes b).2 = Z.to_nat (Builder.members b).
Proof.
  rewrite Build_members_processes_eq. simpl.
  by rewrite !length_fmap, length_seqZ.
Qed.

(** The options applied to a process, in both cases of the TLS gate. *)
Lemma process_at_eq (b : Builder.t) (i : Z) :
  process_at b i
  = Process.mk (toHostName (Builder.name b) i) (hostname_at b i)
      (Builder.mongodbVersion b) (Builder.name b) (Builder.fcv b)
      (if isTLSEnabled b then Args26.mk (Net.mk (tls_block b))
       else Args26.zero).
Proof.
  unfold process_at, newProcess, Build_opts.
  by destruct (isTLSEnabled b).
Qed.

Lemma isTLSEnabled_true (b : Builder.t) :
  isTLSEnabled b = true <-> tls_fully_enabled b.
Proof.
  unfold isTLSEnabled, tls_fully_enabled.
  rewrite !andb_true_iff, !bool_decide_eq_true. tauto.
Qed.

Lemma isTLSEnabled_false (b : Builder.t) :
  isTLSEnabled b = false <-> ~ tls_fully_enabled b.
Proof.
  rewrite <- isTLSEnabled_true. by destruct (isTLSEnabled b).
Qed.

(** [currentAc], field by field. *)
Lemma Build_currentAc_eq (b : Builder.t) (auth : Auth) :
  Build_currentAc b auth
  = AutomationConfig.mk
      (AutomationConfig.Version (Builder.previousAC b))
      (process_at b <$> seqZ 0 (Builder.members b))
      [ReplicaSet.mk (Builder.name b)
         (member_at b <$> seqZ 0 (Builder.members b)) "1"]
      (Builder.versions b)
      (Options.mk "/var/lib/mongodb-mms-automation")
      auth
      (SSL.mk ClientCertificateModeOptional
         (if isTLSEnabled b then Builder.tlsCAFile b else "")).
Proof.
  unfold Build_currentAc. rewrite Build_members_processes_eq.
  by destruct (isTLSEnabled b).
Qed.

End BuildLoops.

(** ** The outcomes of [Build] *)

Section BuildOutcomes.
Context `{E : Env}.

(** A run that reaches the last statement returns [currentAc], with its
    version incremented exactly when the two serializations differ. *)
Lemma Build_run_returns (b : Builder.t) (auth : Auth) (pb cb : list byte) :
  Build_run b auth pb cb ->
  Build b
  = Returns
      (if decide (pb = cb) then Build_currentAc b auth
       else AutomationConfig.with_Version (Build_currentAc b auth)
              (GoInt.int_add
                 (AutomationConfig.Version (Build_currentAc b auth)) 1))
      None.
Proof.
  intros (Hn & (en & Hen & Hauth) & Hpb & Hcb). unfold Build.
  rewrite decide_False by lia. rewrite Hen, Hauth, Hpb, Hcb.
  destruct (decide (pb = cb)) as [->|Hne].
  - rewrite decide_False; [done|]. rewrite bytes_Compare_refl. by intros [].
  - rewrite decide_True; [done|]. by rewrite bytes_Compare_eq_0.
Qed.

(** Conversely, a document comes with a [nil] error only from such a run. *)
Lemma Build_returns_inv (b : Builder.t) (doc : AutomationConfig.t Auth) :
  Build b = Returns doc None ->
  exists auth pb cb,
    Build_run b auth pb cb
    /\ doc = (if decide (pb = cb) then Build_currentAc b auth
              else AutomationConfig.with_Version (Build_currentAc b auth)
                     (GoInt.int_add
                        (AutomationConfig.Version (Build_currentAc b auth)) 1)).
Proof.
  unfold Build. intros HB.
  destruct (decide (Builder.members b < 0)) as [|Hn]; [done|].
  destruct (Builder.enabler b) as [en|] eqn:Hen; [|done].
  destruct (Enable en DisabledAuth) as [auth [e|]] eqn:Hauth; [done|].
  destruct (json_Marshal (Builder.previousAC b)) as [pb [e|]] eqn:Hpb; [done|].
  destruct (json_Marshal (Build_currentAc b auth)) as [cb [e|]] eqn:Hcb; [done|].
  exists auth, pb, cb. split.
  - unfold Build_run. rewrite Hpb, Hcb. repeat split; [lia|by exists en].
  - destruct (decide (bytes_Compare pb cb <> 0)) as [Hc|Hc];
      injection HB as <-.
    + rewrite decide_False; [done|]. by rewrite <- bytes_Compare_eq_0.
    + rewrite decide_True; [done|].
      apply bytes_Compare_eq_0. by destruct (decide (bytes_Compare pb cb = 0)).
Qed.

(** Every field of a returned document but [Version] is that of
    [currentAc]. *)
Lemma Build_returns_fields (b : Builder.t) (doc : AutomationConfig.t Auth) :
  Build b = Returns doc None ->
  0 <= Builder.members b
  /\ AutomationConfig.Processes doc
     = process_at b <$> seqZ 0 (Builder.members b)
  /\ AutomationConfig.ReplicaSets doc
     = [ReplicaSet.mk (Builder.name b)
          (member_at b <$> seqZ 0 (Builder.members b)) "1"]
  /\ AutomationConfig.Versions doc = Builder.versions b
  /\ AutomationConfig.Options doc
     = Options.mk "/var/lib/mongodb-mms-automation"
  /\ AutomationConfig.SSL doc
     = SSL.mk ClientCertificateModeOptional
         (if isTLSEnabled b then Builder.tlsCAFile b else "").
Proof.
  intros HB. apply Build_returns_inv in HB as (auth & pb & cb & Hrun & ->).
  destruct Hrun as (Hn & _). split; [done|].
  destruct (decide (pb = cb)); rewrite Build_currentAc_eq; done.
Qed.

End BuildOutcomes.

(** ** The catalog of installable versions *)

Section Catalog.
Context `{E : Env}.

Lemma AddVersion_step_prefix (builds : list BuildConfig.t) (k : nat) :
  (k <= length builds)%nat ->
  foldl AddVersion_step builds (seq 0 k)
  = (AddVersion_stored <$> take k builds) ++ drop k builds.
Proof.
  induction k as [|k IH]; intros Hk.
  - by rewrite take_0, drop_0.
  - rewrite seq_S, foldl_app, IH by lia. simpl.
    destruct (lookup_lt_is_Some_2 builds k) as [build Hbuild]; [lia|].
    assert (length (AddVersion_stored <$> take k builds) = k) as Hlen
      by (rewrite length_fmap, length_take; lia).
    rewrite (take_S_r builds k build), fmap_app, <- (assoc_L (++)) by done.
    rewrite (drop_S builds build k) by done. simpl.
    unfold AddVersion_step.
    rewrite lookup_app_r, Hlen, Nat.sub_diag by lia. simpl.
    destruct (BuildConfig.Modules build) as [ms|] eqn:Hm.
    + replace (AddVersion_stored build) with build; [done|].
      unfold AddVersion_stored. by rewrite Hm.
    + replace (AddVersion_stored build) with (BuildConfig.mk (Some []))
        by (unfold AddVersion_stored; by rewrite Hm).
      rewrite insert_app_r_alt, Hlen, Nat.sub_diag by lia. done.
Qed.

Lemma AddVersion_normalize_eq (version : MongoDbVersionConfig.t) :
  AddVersion_normalize version
  = MongoDbVersionConfig.mk (MongoDbVersionConfig.Name version)
      (AddVersion_stored <$> MongoDbVersionConfig.Builds version).
Proof.
  unfold AddVersion_normalize.
  rewrite AddVersion_step_prefix, firstn_all, drop_all by lia.
  by rewrite (right_id_L [] (++)).
Qed.

Lemma AddVersion_stored_set (build : BuildConfig.t) :
  modules_set (AddVersion_stored build).
Proof.
  unfold modules_set, AddVersion_stored.
  destruct (BuildConfig.Modules build) eqn:Hm; simpl; congruence.
Qed.

Lemma run_call_catalog (b : Builder.t) (c : call) :
  catalog_modules_set (Builder.versions b) ->
  catalog_modules_set (Builder.versions (run_call b c)).
Proof.
  intros Hb. destruct c; simpl; try done.
  apply Forall_app. split; [done|].
  apply Forall_singleton. rewrite AddVersion_normalize_eq. simpl.
  apply Forall_fmap, Forall_true. intros build. apply AddVersion_stored_set.
Qed.

Lemma foldl_run_call_catalog (cs : list call) (b : Builder.t) :
  catalog_modules_set (Builder.versions b) ->
  catalog_modules_set (Builder.versions (foldl run_call b cs)).
Proof.
  revert b. induction cs as [|c cs IH]; intros b Hb; simpl; [done|].
  by apply IH, run_call_catalog.
Qed.

Lemma chain_catalog (cs : list call) :
  catalog_modules_set (Builder.versions (chain cs)).
Proof. apply foldl_run_call_catalog. by apply Forall_nil. Qed.

End Catalog.

(** ** The properties the specification states of [Build] *)

Section Claims.
Context `{E : Env}.

Lemma Build_currentAc_previous (b : Builder.t)
    (prev : AutomationConfig.t Auth) (auth : Auth) :
  Build_currentAc (SetPreviousAutomationConfig b prev) auth
  = AutomationConfig.with_Version (Build_currentAc b auth)
      (AutomationConfig.Version prev).
Proof. by rewrite !Build_currentAc_eq. Qed.

(** C1. In a run of [Build] that reaches its last statement (the enabler
    and the two serializations succeed), the document returned has the
    version of the previous document, incremented by one, when the
    serialization of the assembled document (whose version is that of the
    previous document) differs from the serialization of the previous
    document, and the version of the previous document itself otherwise;
    there is no third value. The increment is Go's [+= 1] on [int]: below
    the largest [int] it is the successor. *)
Theorem Build_version_rule (b : Builder.t) (enabler : Enabler) (auth : Auth)
    (newAcBytes currentAcBytes : list byte) :
  0 <= Builder.members b ->
  Builder.enabler b = Some enabler ->
  Enable enabler DisabledAuth = (auth, None) ->
  json_Marshal (Builder.previousAC b) = (newAcBytes, None) ->
  json_Marshal (Build_currentAc b auth) = (currentAcBytes, None) ->
  let previous := AutomationConfig.Version (Builder.previousAC b) in
  exists doc,
    Build b = Returns doc None
    /\ AutomationConfig.Version (Build_currentAc b auth) = previous
    /\ (currentAcBytes <> newAcBytes ->
        AutomationConfig.Version doc = GoInt.int_add previous 1)
    /\ (currentAcBytes = newAcBytes ->
        AutomationConfig.Version doc = previous)
    /\ (AutomationConfig.Version doc = previous
        \/ AutomationConfig.Version doc = GoInt.int_add previous 1)
    /\ (GoInt.min_int <= previous < GoInt.max_int ->
        GoInt.int_add previous 1 = previous + 1).
Proof.
  intros Hn Hen Hauth Hpb Hcb previous.
  assert (Build_run b auth newAcBytes currentAcBytes) as Hrun
    by (repeat split; [done|by exists enabler|done..]).
  apply Build_run_returns in Hrun.
  assert (AutomationConfig.Version (Build_currentAc b auth) = previous) as Hv
    by (by rewrite Build_currentAc_eq).
  eexists. split; [exact Hrun|]. split; [done|].
  destruct (decide (newAcBytes = currentAcBytes)) as [Heq|Hne]; simpl;
    rewrite ?Hv; repeat split; auto using int_add_1_no_overflow; congruence.
Qed.

(** C2. If [Build] with previous document [X] returns [Y], then [Build]
    with previous document [Y] and every other input unchanged returns a
    document [Z] with [Z.Version = Y.Version] that is [Y] itself. The
    serializer is taken not to fail on account of the value of
    [Version]. *)
Theorem Build_idempotent (b : Builder.t) (Y : AutomationConfig.t Auth) :
  Marshal_total_in_Version ->
  Build b = Returns Y None ->
  exists Z,
    Build (SetPreviousAutomationConfig b Y) = Returns Z None
    /\ AutomationConfig.Version Z = AutomationConfig.Version Y
    /\ Z = Y.
Proof.
  intros HM HB.
  apply Build_returns_inv in HB as (auth & pb & cb & Hrun & HY).
  destruct Hrun as (Hn & Hen & Hpb & Hcb).
  assert (Build_currentAc (SetPreviousAutomationConfig b Y) auth = Y) as Hcur.
  { rewrite Build_currentAc_previous, HY.
    destruct (decide (pb = cb)); [|done].
    by destruct (Build_currentAc b auth). }
  assert ((json_Marshal Y).2 = None) as HmY.
  { rewrite HY. destruct (decide (pb = cb)).
    - by rewrite Hcb.
    - apply HM. by rewrite Hcb. }
  destruct (json_Marshal Y) as [yb err] eqn:HYb. simpl in HmY. subst err.
  assert (Build_run (SetPreviousAutomationConfig b Y) auth yb yb) as Hrun
    by (unfold Build_run; rewrite Hcur; done).
  apply Build_run_returns in Hrun.
  rewrite decide_True, Hcur in Hrun by done.
  by exists Y.
Qed.

(** C3. In every process of a returned document the TLS block is
    populated exactly when the CA file path is not empty, the
    cert-and-key file path is not empty and the mode is not the disabled
    one; it is then the configured mode, the CA file, the key file and
    [AllowConnectionsWithoutCertificate = true]; in every other case the
    block is the zero block: no TLS field is set. *)
Theorem Build_process_TLS (b : Builder.t) (doc : AutomationConfig.t Auth)
    (p : Process.t) :
  Build b = Returns doc None ->
  p ∈ AutomationConfig.Processes doc ->
  let block := Net.SSL (Args26.Net (Process.Args26 p)) in
  (block <> MongoDBSSL.zero <-> tls_fully_enabled b)
  /\ (tls_fully_enabled b ->
      block = MongoDBSSL.mk (Builder.tlsMode b) (Builder.tlsCAFile b)
                (Builder.tlsCertAndKeyFile b) true)
  /\ (~ tls_fully_enabled b -> block = MongoDBSSL.zero).
Proof.
  intros HB Hp block. subst block.
  apply Build_returns_fields in HB as (_ & Hps & _).
  rewrite Hps in Hp. apply list_elem_of_fmap in Hp as (i & -> & _).
  rewrite process_at_eq. simpl.
  destruct (isTLSEnabled b) eqn:Htls; simpl.
  - apply isTLSEnabled_true in Htls.
    split; [split; [done|by intros _]|]. split; [done|by intros []].
  - apply isTLSEnabled_false in Htls.
    split; [split; [by intros []|done]|]. split; [done|by intros _].
Qed.

(** C4. After [SetMembers(N)] with [N >= 0], a returned document has
    exactly [N] processes and one replica set of exactly [N] members; the
    member ids are [0, 1, ..., N-1] in this order, and the member at
    index [i] refers to the process at index [i], and to no other. *)
Theorem Build_cardinality (b : Builder.t) (N : Z)
    (doc : AutomationConfig.t Auth) :
  0 <= N ->
  Build (SetMembers b N) = Returns doc None ->
  exists rs,
    AutomationConfig.ReplicaSets doc = [rs]
    /\ Z.of_nat (length (AutomationConfig.Processes doc)) = N
    /\ Z.of_nat (length (ReplicaSet.Members rs)) = N
    /\ ReplicaSetMember.Id <$> ReplicaSet.Members rs = seqZ 0 N
    /\ forall i : nat, Z.of_nat i < N ->
         exists m p,
           ReplicaSet.Members rs !! i = Some m
           /\ AutomationConfig.Processes doc !! i = Some p
           /\ ReplicaSetMember.Id m = Z.of_nat i
           /\ ReplicaSetMember.Host m = Process.Name p
           /\ forall (j : nat) (q : Process.t),
                AutomationConfig.Processes doc !! j = Some q ->
                Process.Name q = ReplicaSetMember.Host m -> j = i.
Proof.
  intros HN HB.
  apply Build_returns_fields in HB as (_ & Hps & Hrs & _). simpl in Hps, Hrs.
  eexists. split; [exact Hrs|]. simpl. rewrite Hps.
  rewrite !length_fmap, length_seqZ.
  split; [lia|]. split; [lia|]. split.
  - apply list_eq; intros i. rewrite !list_lookup_fmap.
    by destruct (seqZ 0 N !! i).
  - intros i Hi. exists (member_at (SetMembers b N) (Z.of_nat i)),
      (process_at (SetMembers b N) (Z.of_nat i)).
    rewrite !list_lookup_fmap, lookup_seqZ_lt, Z.add_0_l by done.
    repeat split; try done.
    intros j q Hq Hname.
    rewrite list_lookup_fmap in Hq.
    destruct (seqZ 0 N !! j) as [k|] eqn:Hk; [|done].
    apply lookup_seqZ in Hk as [-> _]. injection Hq as <-.
    unfold member_at, newReplicaSetMember in Hname.
    rewrite !process_at_eq in Hname. simpl in Hname.
    apply toHostName_inj in Hname. lia.
Qed.

(** C5. If the call of [Enable] on the disabled baseline returns an
    error, [Build] returns that very error together with the empty
    [AutomationConfig]: nothing of the assembled document is returned. *)
Theorem Build_enabler_error (b : Builder.t) (enabler : Enabler)
    (auth : Auth) (e : error) :
  0 <= Builder.members b ->
  Builder.enabler b = Some enabler ->
  Enable enabler DisabledAuth = (auth, Some e) ->
  Build b = Returns AutomationConfig_zero (Some e).
Proof.
  intros Hn Hen Hauth. unfold Build.
  rewrite decide_False by lia. by rewrite Hen, Hauth.
Qed.

(** C6. For every index [i] with [0 <= i < N], the process at index [i]
    of a returned document has the hostname [<name>-<i>.<domain>] and the
    process name [<name>-<i>], [<i>] written in decimal. *)
Theorem Build_hostname_derivation (b : Builder.t)
    (doc : AutomationConfig.t Auth) (i : Z) :
  Build b = Returns doc None ->
  0 <= i < Builder.members b ->
  exists p,
    AutomationConfig.Processes doc !! Z.to_nat i = Some p
    /\ Process.HostName p
       = Builder.name b +:+ "-" +:+ pretty i +:+ "." +:+ Builder.domain b
    /\ Process.Name p = Builder.name b +:+ "-" +:+ pretty i.
Proof.
  intros HB Hi.
  apply Build_returns_fields in HB as (_ & Hps & _).
  exists (process_at b i). rewrite Hps, list_lookup_fmap.
  rewrite lookup_seqZ_lt by lia. simpl.
  rewrite Z.add_0_l, Z2Nat.id by lia.
  by rewrite process_at_eq.
Qed.

(** C7. In a returned document [SSL.ClientCertificateMode] is the
    optional mode, and [SSL.CAFilePath] is set, to the configured CA file
    path, exactly when TLS is fully enabled; otherwise it is empty. *)
Theorem Build_agent_SSL (b : Builder.t) (doc : AutomationConfig.t Auth) :
  Build b = Returns doc None ->
  let ssl := AutomationConfig.SSL doc in
  SSL.ClientCertificateMode ssl = ClientCertificateModeOptional
  /\ (SSL.CAFilePath ssl <> "" <-> tls_fully_enabled b)
  /\ (tls_fully_enabled b -> SSL.CAFilePath ssl = Builder.tlsCAFile b)
  /\ (~ tls_fully_enabled b -> SSL.CAFilePath ssl = "").
Proof.
  intros HB ssl. subst ssl.
  apply Build_returns_fields in HB as (_ & _ & _ & _ & _ & ->). simpl.
  split; [done|].
  destruct (isTLSEnabled b) eqn:Htls.
  - apply isTLSEnabled_true in Htls.
    split; [split; [done|by destruct Htls]|]. split; [done|by intros []].
  - apply isTLSEnabled_false in Htls.
    split; [split; [by intros []|done]|]. split; [done|by intros _].
Qed.

(** C8. [AddVersion] appends the catalog entry it is given with every
    unset ([nil]) module list replaced by the empty list and every other
    build left as it is; so in a document returned for a builder made by
    a chain of setter calls, every build of every catalog entry has a
    module list that is set. *)
Theorem AddVersion_modules (b : Builder.t) (version : MongoDbVersionConfig.t) :
  (exists stored,
     Builder.versions (AddVersion b version) = Builder.versions b ++ [stored]
     /\ MongoDbVersionConfig.Name stored = MongoDbVersionConfig.Name version
     /\ length (MongoDbVersionConfig.Builds stored)
        = length (MongoDbVersionConfig.Builds version)
     /\ forall (idx : nat) (build : BuildConfig.t),
          MongoDbVersionConfig.Builds version !! idx = Some build ->
          MongoDbVersionConfig.Builds stored !! idx
          = Some (match BuildConfig.Modules build with
                  | None => BuildConfig.mk (Some [])
                  | Some _ => build
                  end))
  /\ forall (cs : list call) (doc : AutomationConfig.t Auth),
       Build (chain cs) = Returns doc None ->
       forall entry build,
         entry ∈ AutomationConfig.Versions doc ->
         build ∈ MongoDbVersionConfig.Builds entry ->
         BuildConfig.Modules build <> None.
Proof.
  split.
  - exists (AddVersion_normalize version). split; [done|].
    rewrite AddVersion_normalize_eq. simpl.
    split; [done|]. split; [by rewrite length_fmap|].
    intros idx build Hbuild. by rewrite list_lookup_fmap, Hbuild.
  - intros cs doc HB entry build Hentry Hbuild.
    apply Build_returns_fields in HB as (_ & _ & _ & Hvs & _).
    pose proof (chain_catalog cs) as Hcat. rewrite <- Hvs in Hcat.
    unfold catalog_modules_set in Hcat. rewrite Forall_forall in Hcat.
    specialize (Hcat entry Hentry). rewrite Forall_forall in Hcat.
    by apply Hcat.
Qed.

(** C9. A returned document holds exactly one replica set, for every
    member count the builder accepts (zero included): its id is the
    deployment name, its members are the [N] derived members in index
    order, and its protocol version is the string ["1"]. *)
Theorem Build_single_replica_set (b : Builder.t)
    (doc : AutomationConfig.t Auth) :
  Build b = Returns doc None ->
  exists rs,
    AutomationConfig.ReplicaSets doc = [rs]
    /\ ReplicaSet.Id rs = Builder.name b
    /\ ReplicaSet.Members rs = member_at b <$> seqZ 0 (Builder.members b)
    /\ Z.of_nat (length (ReplicaSet.Members rs)) = Builder.members b
    /\ ReplicaSet.ProtocolVersion rs = "1".
Proof.
  intros HB.
  apply Build_returns_fields in HB as (Hn & _ & Hrs & _).
  eexists. split; [exact Hrs|]. simpl.
  rewrite length_fmap, length_seqZ. repeat split; [lia].
Qed.

(** C10. The previous document reaches the output of [Build] through
    the version counter only: two builds that differ in nothing but the
    previous document return documents that agree on every field other
    than [Version]. *)
Theorem Build_previous_only_Version (b : Builder.t)
    (X1 X2 doc1 doc2 : AutomationConfig.t Auth) :
  Build (SetPreviousAutomationConfig b X1) = Returns doc1 None ->
  Build (SetPreviousAutomationConfig b X2) = Returns doc2 None ->
  AutomationConfig.Processes doc1 = AutomationConfig.Processes doc2
  /\ AutomationConfig.ReplicaSets doc1 = AutomationConfig.ReplicaSets doc2
  /\ AutomationConfig.Versions doc1 = AutomationConfig.Versions doc2
  /\ AutomationConfig.Options doc1 = AutomationConfig.Options doc2
  /\ AutomationConfig.Auth doc1 = AutomationConfig.Auth doc2
  /\ AutomationConfig.SSL doc1 = AutomationConfig.SSL doc2.
Proof.
  intros HB1 HB2.
  apply Build_returns_inv in HB1 as (auth1 & pb1 & cb1 & Hrun1 & ->).
  apply Build_returns_inv in HB2 as (auth2 & pb2 & cb2 & Hrun2 & ->).
  destruct Hrun1 as (_ & (en1 & Hen1 & Hauth1) & _).
  destruct Hrun2 as (_ & (en2 & Hen2 & Hauth2) & _).
  simpl in Hen1, Hen2. rewrite Hen1 in Hen2. injection Hen2 as <-.
  rewrite Hauth1 in Hauth2. injection Hauth2 as <-.
  rewrite !Build_currentAc_previous.
  destruct (decide (pb1 = cb1)), (decide (pb2 = cb2)); done.
Qed.

End Claims.

(** ** The scenarios of the specification, run in the sample environment *)

(** ** Further properties of the builder *)

Section Outcomes.
Context `{E : Env}.

(** [Build] reads its builder through the sign of [members], the enabler,
    the previous document and [currentAc] only. *)
Lemma Build_ext (b1 b2 : Builder.t) :
  Builder.members b1 = Builder.members b2 ->
  Builder.enabler b1 = Builder.enabler b2 ->
  Builder.previousAC b1 = Builder.previousAC b2 ->
  (forall auth, Build_currentAc b1 auth = Build_currentAc b2 auth) ->
  Build b1 = Build b2.
Proof.
  intros Hn Hen Hprev Hcur. unfold Build. rewrite Hn, Hen, Hprev.
  destruct (decide (Builder.members b2 < 0)); [done|].
  destruct (Builder.enabler b2) as [en|]; [|done].
  destruct (Enable en DisabledAuth) as [auth [e|]]; [done|].
  by rewrite Hcur.
Qed.


(** [Build] returns an error exactly in three cases, tried in this order:
    the enabler fails, the serialization of the previous document fails,
    the serialization of the assembled document fails; the error is the
    failing call's own, and the document next to it is empty. *)
Theorem Build_error_iff (b : Builder.t) (doc : AutomationConfig.t Auth)
    (e : error) :
  Build b = Returns doc (Some e)
  <-> doc = AutomationConfig_zero
      /\ 0 <= Builder.members b
      /\ exists enabler auth,
           Builder.enabler b = Some enabler
           /\ (Enable enabler DisabledAuth = (auth, Some e)
               \/ (Enable enabler DisabledAuth = (auth, None)
                   /\ ((json_Marshal (Builder.previousAC b)).2 = Some e
                       \/ ((json_Marshal (Builder.previousAC b)).2 = None
                           /\ (json_Marshal (Build_currentAc b auth)).2
                              = Some e)))).
Proof.
  unfold Build.
  destruct (decide (Builder.members b < 0)) as [Hn|Hn].
  { split; [done|]. intros (_ & ? & _). lia. }
  destruct (Builder.enabler b) as [en|].
  2: { split; [done|]. by intros (_ & _ & ? & ? & ? & _). }
  destruct (Enable en DisabledAuth) as [auth [e'|]] eqn:Hauth.
  { split.
    - intros [= <- <-]. split; [done|]. split; [lia|].
      exists en, auth. split; [done|]. by left.
    - intros (-> & _ & en' & auth' & [= <-] & [Hen|[Hen _]]);
        rewrite Hauth in Hen; by simplify_eq. }
  destruct (json_Marshal (Builder.previousAC b)) as [pb [e'|]] eqn:Hpb; simpl.
  { split.
    - intros [= <- <-]. split; [done|]. split; [lia|].
      exists en, auth. split; [done|]. right. split; [done|]. by left.
    - intros (-> & _ & en' & auth' & [= <-] & [Hen|[Hen [Hp|[Hp _]]]]);
        rewrite Hauth in Hen; by simplify_eq. }
  destruct (json_Marshal (Build_currentAc b auth)) as [cb [e'|]] eqn:Hcb.
  { split.
    - intros [= <- <-]. split; [done|]. split; [lia|].
      exists en, auth. split; [done|]. right. split; [done|]. right.
      by rewrite Hcb.
    - intros (-> & _ & en' & auth' & [= <-] & [Hen|[Hen [Hp|[_ Hc]]]]);
        rewrite Hauth in Hen; simplify_eq.
      rewrite Hcb in Hc. by simplify_eq/=. }
  split.
  - by destruct (decide (bytes_Compare pb cb <> 0)).
  - intros (_ & _ & en' & auth' & [= <-] & [Hen|[Hen [Hp|[_ Hc]]]]);
      rewrite Hauth in Hen; simplify_eq.
    by rewrite Hcb in Hc.
Qed.

(** A document returned with a [nil] error is never the empty document:
    it always holds its one replica set. *)
Theorem Build_success_not_zero (b : Builder.t)
    (doc : AutomationConfig.t Auth) :
  Build b = Returns doc None -> doc <> AutomationConfig_zero.
Proof.
  intros HB ->. by apply Build_returns_fields in HB as (_ & _ & ? & _).
Qed.

End Outcomes.

Section Setters.
Context `{E : Env}.

(** Only [SetEnabler] ever assigns the enabler. *)
Lemma foldl_run_call_enabler (cs : list call) (b : Builder.t) :
  Forall (fun c => setter_of c <> OfSetEnabler) cs ->
  Builder.enabler (foldl run_call b cs) = Builder.enabler b.
Proof.
  revert b. induction cs as [|c cs IH]; intros b Hcs; simpl; [done|].
  apply Forall_cons in Hcs as [Hc Hcs]. rewrite IH by done.
  by destruct c.
Qed.

(** A builder made without a call of [SetEnabler] cannot be built:
    [Build] panics on it, whatever else was set. *)
Theorem Build_without_SetEnabler_panics (cs : list call) :
  Forall (fun c => setter_of c <> OfSetEnabler) cs ->
  Build (chain cs) = Panics.
Proof.
  intros Hcs. unfold chain, Build.
  rewrite foldl_run_call_enabler by done. simpl.
  by destruct (decide _).
Qed.

(** [Build] reads eleven fields of its builder: builders that agree on
    them are built alike, whatever [topology], [processes], [replicaSets],
    [version] and [auth] hold. *)
Theorem Build_reads_only (b1 b2 : Builder.t) :
  same_Build_inputs b1 b2 -> Build b1 = Build b2.
Proof.
  intros (Hen & Hn & Hd & Hname & Hfcv & Hv & Hprev & Hca & Hkey & Hmode & Hvs).
  destruct b1, b2. simpl in *. by subst.
Qed.

(** The topology is never read: [SetTopology] does not change what
    [Build] does. *)
Theorem Build_ignores_topology (b : Builder.t) (topology : Topology) :
  Build (SetTopology b topology) = Build b.
Proof. done. Qed.

(** A TLS configuration that is not complete is not an error and leaves
    no trace: [Build] does what it does with no TLS configuration at
    all. *)
Theorem Build_partial_TLS (b : Builder.t) :
  ~ tls_fully_enabled b -> Build b = Build (SetTLS b "" "" "").
Proof.
  intros Htls. apply isTLSEnabled_false in Htls.
  assert (isTLSEnabled (SetTLS b "" "" "") = false) as Hoff by done.
  assert (forall i, process_at b i = process_at (SetTLS b "" "" "") i) as Hp
    by (intros i; by rewrite !process_at_eq, Htls, Hoff).
  assert (forall i, member_at b i = member_at (SetTLS b "" "" "") i) as Hm
    by (intros i; unfold member_at; by rewrite Hp).
  apply Build_ext; try done. intros auth.
  rewrite !Build_currentAc_eq, Htls, Hoff. simpl.
  rewrite (list_fmap_ext _ _ _ (fun _ i _ => Hp i)).
  by rewrite (list_fmap_ext _ _ _ (fun _ i _ => Hm i)).
Qed.

(** Calls of two different setters commute. *)
Theorem setters_commute (b : Builder.t) (c1 c2 : call) :
  setter_of c1 <> setter_of c2 ->
  run_call (run_call b c1) c2 = run_call (run_call b c2) c1.
Proof. by destruct c1, c2. Qed.

(** Of two calls in a row of the same setter, other than [AddVersion],
    only the second counts. *)
Theorem setter_last_call_wins (b : Builder.t) (c1 c2 : call) :
  setter_of c1 = setter_of c2 ->
  setter_of c2 <> OfAddVersion ->
  run_call (run_call b c1) c2 = run_call b c2.
Proof. by destruct c1, c2. Qed.

Lemma foldl_run_call_versions (cs : list call) (b : Builder.t) :
  Builder.versions (foldl run_call b cs)
  = Builder.versions b ++ (AddVersion_normalize <$> added_versions cs).
Proof.
  revert b. induction cs as [|c cs IH]; intros b; simpl.
  - by rewrite (right_id_L [] (++)).
  - rewrite IH. destruct c; simpl; try done.
    by rewrite <- (assoc_L (++)).
Qed.

(** The catalog is append-only: after a chain of calls it holds the
    entries passed to [AddVersion], normalised, in call order, and
    nothing else; no other setter touches it, and a returned document
    carries it unchanged. *)
Theorem chain_catalog_in_call_order (cs : list call) :
  Builder.versions (chain cs) = AddVersion_normalize <$> added_versions cs
  /\ forall doc, Build (chain cs) = Returns doc None ->
       AutomationConfig.Versions doc
       = AddVersion_normalize <$> added_versions cs.
Proof.
  assert (Builder.versions (chain cs)
          = AddVersion_normalize <$> added_versions cs) as Hvs
    by apply foldl_run_call_versions.
  split; [done|]. intros doc HB.
  apply Build_returns_fields in HB as (_ & _ & _ & -> & _). done.
Qed.

Lemma foldl_run_call_unused (cs : list call) (b : Builder.t) :
  Builder.processes (foldl run_call b cs) = Builder.processes b
  /\ Builder.replicaSets (foldl run_call b cs) = Builder.replicaSets b
  /\ Builder.version (foldl run_call b cs) = Builder.version b
  /\ Builder.auth (foldl run_call b cs) = Builder.auth b.
Proof.
  revert b. induction cs as [|c cs IH]; intros b; simpl; [done|].
  destruct (IH (run_call b c)) as (-> & -> & -> & ->). by destruct c.
Qed.

(** No setter assigns the fields [processes], [replicaSets], [version]
    and [auth]: in every builder made by a chain of calls they hold what
    [NewBuilder] gave them. *)
Theorem chain_unused_fields (cs : list call) :
  Builder.processes (chain cs) = []
  /\ Builder.replicaSets (chain cs) = []
  /\ Builder.version (chain cs) = 0
  /\ Builder.auth (chain cs) = Auth_zero.
Proof. apply (foldl_run_call_unused cs NewBuilder). Qed.

(** [Build] tells two previous documents apart by their version and
    their serialization only. *)
Theorem Build_previous_up_to_Marshal (b : Builder.t)
    (X1 X2 : AutomationConfig.t Auth) :
  AutomationConfig.Version X1 = AutomationConfig.Version X2 ->
  json_Marshal X1 = json_Marshal X2 ->
  Build (SetPreviousAutomationConfig b X1)
  = Build (SetPreviousAutomationConfig b X2).
Proof.
  intros Hv HM. unfold Build. simpl.
  destruct (decide (Builder.members b < 0)); [done|].
  destruct (Builder.enabler b) as [en|]; [|done].
  destruct (Enable en DisabledAuth) as [auth [e|]]; [done|].
  rewrite !Build_currentAc_previous, Hv, HM. done.
Qed.

(** Without overflow the version never goes down and goes up by one at
    most; at the largest [int] a change of the document wraps it to the
    smallest [int]. The version of a returned document is an [int]. *)
Theorem Build_version_monotone (b : Builder.t)
    (doc : AutomationConfig.t Auth) :
  Build b = Returns doc None ->
  GoInt.in_range (AutomationConfig.Version (Builder.previousAC b)) ->
  let previous := AutomationConfig.Version (Builder.previousAC b) in
  GoInt.in_range (AutomationConfig.Version doc)
  /\ (previous < GoInt.max_int ->
      previous <= AutomationConfig.Version doc <= previous + 1)
  /\ (previous = GoInt.max_int ->
      AutomationConfig.Version doc = GoInt.max_int
      \/ AutomationConfig.Version doc = GoInt.min_int).
Proof.
  intros HB Hr previous.
  apply Build_returns_inv in HB as (auth & pb & cb & _ & ->).
  assert (AutomationConfig.Version (Build_currentAc b auth) = previous) as Hv
    by (by rewrite Build_currentAc_eq).
  destruct (decide (pb = cb)); simpl; rewrite Hv.
  - split; [done|]. split; [lia|]. by left.
  - split; [apply int_add_in_range|]. split.
    + intros Hlt. rewrite int_add_1_no_overflow; [lia|].
      destruct Hr. lia.
    + intros ->. by right.
Qed.

End Setters.

(** *** Strings *)

Lemma string_app_cons (a : Ascii.ascii) (s t : string) :
  String a s +:+ t = String a (s +:+ t).
Proof. reflexivity. Qed.

Lemma string_app_assoc (s1 s2 s3 : string) :
  (s1 +:+ s2) +:+ s3 = s1 +:+ (s2 +:+ s3).
Proof.
  induction s1 as [|a s1 IH]; [done|].
  by rewrite !string_app_cons, IH.
Qed.

Lemma string_length_app (s t : string) :
  String.length (s +:+ t) = (String.length s + String.length t)%nat.
Proof.
  induction s as [|a s IH]; [done|].
  rewrite string_app_cons. simpl. by rewrite IH.
Qed.

Lemma string_app_inj_r (s1 s2 t : string) : s1 +:+ t = s2 +:+ t -> s1 = s2.
Proof.
  revert s2. induction s1 as [|a s1 IH]; intros [|b s2] Heq; [done|..].
  - apply (f_equal String.length) in Heq.
    rewrite !string_length_app in Heq. simpl in Heq. lia.
  - apply (f_equal String.length) in Heq.
    rewrite !string_length_app in Heq. simpl in Heq. lia.
  - rewrite !string_app_cons in Heq. injection Heq as -> Heq.
    f_equal. by apply IH.
Qed.

Section Derivation.
Context `{E : Env}.

Lemma hostname_at_inj (b : Builder.t) (i j : Z) :
  hostname_at b i = hostname_at b j -> i = j.
Proof.
  unfold hostname_at. intros Hij.
  apply String.app_inj in Hij. apply String.app_inj in Hij.
  apply string_app_inj_r in Hij. by apply fmt_d_inj.
Qed.

(** The hostnames [Build] derives are as many as the member count, when
    it is not negative, and pairwise distinct, whatever the name and the
    domain are (the empty string included). *)
Theorem Build_hostnames_distinct (b : Builder.t) :
  length (Build_hostnames b) = Z.to_nat (Builder.members b)
  /\ NoDup (Build_hostnames b).
Proof.
  split; [apply length_Build_hostnames|].
  rewrite Build_hostnames_eq. apply NoDup_fmap_2_strong; [|apply NoDup_seqZ].
  intros i j _ _. apply hostname_at_inj.
Qed.

(** The two formats agree: the hostname at index [i] is the process name
    [toHostName(b.name, i)] followed by a dot and the domain. *)
Theorem Build_hostname_of_process_name (b : Builder.t) (i : Z) :
  0 <= i < Builder.members b ->
  Build_hostnames b !! Z.to_nat i
  = Some (toHostName (Builder.name b) i +:+ "." +:+ Builder.domain b).
Proof.
  intros Hi. rewrite Build_hostnames_eq, list_lookup_fmap.
  rewrite lookup_seqZ_lt by lia. simpl.
  rewrite Z.add_0_l, Z2Nat.id by lia.
  unfold hostname_at, toHostName. by rewrite !string_app_assoc.
Qed.

(** What the options of [Build] do to a process, whichever it is: the
    feature-compatibility version becomes the configured one; the TLS
    block becomes the configured one when TLS is enabled and is left as
    it is otherwise; nothing else changes. The two options commute. *)
Theorem Build_opts_effect (b : Builder.t) (p : Process.t) :
  apply_opts (Build_opts b) p
  = Process.mk (Process.Name p) (Process.HostName p) (Process.Version p)
      (Process.ReplicaSetName p) (Builder.fcv b)
      (if isTLSEnabled b then Args26.mk (Net.mk (tls_block b))
       else Process.Args26 p)
  /\ apply_opts (reverse (Build_opts b)) p = apply_opts (Build_opts b) p.
Proof.
  unfold Build_opts. destruct (isTLSEnabled b); [done|].
  split; [|done]. by destruct p.
Qed.

(** The agent and the servers are told the same CA file: in a returned
    document the CA file of every process is the agent's
    [SSL.CAFilePath], set or not. *)
Theorem Build_CA_file_consistent (b : Builder.t)
    (doc : AutomationConfig.t Auth) (p : Process.t) :
  Build b = Returns doc None ->
  p ∈ AutomationConfig.Processes doc ->
  MongoDBSSL.CAFile (Net.SSL (Args26.Net (Process.Args26 p)))
  = SSL.CAFilePath (AutomationConfig.SSL doc).
Proof.
  intros HB Hp.
  apply Build_returns_fields in HB as (_ & Hps & _ & _ & _ & ->).
  rewrite Hps in Hp. apply list_elem_of_fmap in Hp as (i & -> & _).
  rewrite process_at_eq. simpl. by destruct (isTLSEnabled b).
Qed.

(** [AddVersion] stores an entry whose module lists are all set exactly
    as it is given. *)
Theorem AddVersion_verbatim (b : Builder.t) (version : MongoDbVersionConfig.t) :
  Forall modules_set (MongoDbVersionConfig.Builds version) ->
  Builder.versions (AddVersion b version) = Builder.versions b ++ [version].
Proof.
  intros Hset. simpl. f_equal. f_equal.
  rewrite AddVersion_normalize_eq. destruct version as [name builds].
  simpl in *. f_equal.
  induction Hset as [|build builds Hbuild _ IH]; [done|].
  rewrite fmap_cons, IH. f_equal.
  unfold AddVersion_stored, modules_set in *.
  by destruct (BuildConfig.Modules build).
Qed.

(** Normalising twice is normalising once: an entry read back from the
    builder and added again is stored as it was. *)
Theorem AddVersion_normalize_idempotent (version : MongoDbVersionConfig.t) :
  AddVersion_normalize (AddVersion_normalize version)
  = AddVersion_normalize version.
Proof.
  rewrite !AddVersion_normalize_eq. simpl. f_equal.
  rewrite <- list_fmap_compose. apply list_fmap_ext. intros _ build _. simpl.
  unfold AddVersion_stored at 2.
  by destruct (BuildConfig.Modules build) eqn:Hm;
    unfold AddVersion_stored; simpl; rewrite ?Hm.
Qed.

End Derivation.

(** *** [AddVersion] on shared slices *)

Lemma AddVersion_stored_id (builds : list BuildConfig.t) :
  Forall modules_set builds -> AddVersion_stored <$> builds = builds.
Proof.
  induction 1 as [|build builds Hbuild _ IH]; [done|].
  rewrite fmap_cons, IH. f_equal.
  unfold AddVersion_stored, modules_set in *.
  by destruct (BuildConfig.Modules build).
Qed.

Lemma Shared_builds_of_loop (h : Shared.store) (version : Shared.entry)
    (s : option Shared.addr) :
  Shared.builds_of (Shared.AddVersion_loop h version) s
  = if decide (s = Shared.Builds version)
    then AddVersion_stored <$> Shared.builds_of h s
    else Shared.builds_of h s.
Proof.
  unfold Shared.AddVersion_loop, Shared.builds_of, Shared.store in *.
  destruct (Shared.Builds version) as [a|] eqn:Ha.
  - destruct (h !! a) as [builds|] eqn:Hbuilds.
    + destruct s as [a'|]; [|by rewrite decide_False].
      destruct (decide (Some a' = Some a)) as [[= ->]|Hne].
      * rewrite lookup_insert_eq, Hbuilds. simpl.
        rewrite AddVersion_step_prefix, firstn_all, drop_all by lia.
        by rewrite (right_id_L [] (++)).
      * rewrite lookup_insert_ne by congruence. done.
    + destruct s as [a'|]; [|by rewrite decide_False].
      destruct (decide (Some a' = Some a)) as [[= ->]|Hne]; [|done].
      by rewrite Hbuilds.
  - destruct s as [a'|]; [by rewrite decide_False|].
    by rewrite decide_True.
Qed.

(** [AddVersion] writes through the slice it is given: after the call the
    caller's own value of [version] is the normalised entry, the one the
    builder holds. *)
Theorem Shared_AddVersion_caller_view (h : Shared.store)
    (versions : list Shared.entry) (version : Shared.entry) :
  Shared.value (Shared.AddVersion h versions version).1 version
  = AddVersion_normalize (Shared.value h version).
Proof.
  unfold Shared.value. simpl.
  rewrite Shared_builds_of_loop, decide_True by done.
  by rewrite AddVersion_normalize_eq.
Qed.


Section SharedCatalog.
Context `{E : Env}.

(** The builder of this file holds catalog entries by value. It agrees
    with [AddVersion] on shared slices as long as the catalog was filled
    by [AddVersion]: when every module list the builder holds is set, the
    call leaves the entries it already holds as they are, also those
    that share the slice of [version], and appends the normalised
    entry. *)
Theorem Shared_AddVersion_refines (h : Shared.store)
    (versions : list Shared.entry) (version : Shared.entry) (b : Builder.t) :
  Builder.versions b = Shared.value h <$> versions ->
  catalog_modules_set (Builder.versions b) ->
  let after := Shared.AddVersion h versions version in
  Shared.value after.1 <$> after.2
  = Builder.versions (AddVersion b (Shared.value h version))
  /\ catalog_modules_set (Shared.value after.1 <$> after.2).
Proof.
  intros Hb Hset after. subst after.
  assert (Shared.value (Shared.AddVersion h versions version).1
            <$> (Shared.AddVersion h versions version).2
          = Builder.versions (AddVersion b (Shared.value h version))) as Heq.
  { simpl. rewrite fmap_app, Hb. simpl. f_equal.
    - apply list_fmap_ext. intros i e He.
      unfold Shared.value. rewrite Shared_builds_of_loop.
      destruct (decide (Shared.Builds e = Shared.Builds version)); [|done].
      rewrite AddVersion_stored_id; [done|].
      rewrite Hb in Hset. unfold catalog_modules_set in Hset.
      rewrite Forall_fmap, Forall_lookup in Hset. exact (Hset i e He).
    - f_equal. unfold Shared.value. simpl.
      rewrite Shared_builds_of_loop, decide_True by done.
      by rewrite AddVersion_normalize_eq. }
  split; [exact Heq|]. rewrite Heq.
  apply (run_call_catalog b (CallAddVersion (Shared.value h version)) Hset).
Qed.

End SharedCatalog.

#[local] Existing Instance Sample.env.

Example fmt_d_decimal :
  fmt_d 0 = "0" /\ fmt_d 7 = "7" /\ fmt_d 10 = "10" /\ fmt_d 1234 = "1234".
Proof. repeat split; run. Qed.

(** Identical parameters: the version stays at 5. *)
Example scenario_no_change :
  Build Sample.rs0_again = Returns Sample.rs0_v5 None
  /\ AutomationConfig.Version Sample.rs0_v5 = 5.
Proof. split; run. Qed.

(** TLS switched on: version 6, the agent's CA file path is set, and every
    process allows connections without certificate. *)
Example scenario_enable_TLS :
  exists doc,
    Build Sample.rs0_tls = Returns doc None
    /\ AutomationConfig.Version doc = 6
    /\ SSL.CAFilePath (AutomationConfig.SSL doc) = "/ca.pem"
    /\ Forall (fun p =>
                 MongoDBSSL.AllowConnectionsWithoutCertificate
                   (Net.SSL (Args26.Net (Process.Args26 p))) = true)
              (AutomationConfig.Processes doc).
Proof.
  exists (Sample.built Sample.rs0_tls).
  split; [run|]. split; [run|]. split; [run|].
  vm_compute. repeat constructor.
Qed.

(** A fourth member: four processes, hostnames [rs0-0.svc.local] to
    [rs0-3.svc.local], version 6. *)
Example scenario_fourth_member :
  exists doc,
    Build Sample.rs0_four = Returns doc None
    /\ AutomationConfig.Version doc = 6
    /\ Process.HostName <$> AutomationConfig.Processes doc
       = ["rs0-0.svc.local"; "rs0-1.svc.local"; "rs0-2.svc.local";
          "rs0-3.svc.local"].
Proof. exists (Sample.built Sample.rs0_four). repeat split; run. Qed.

(** No member at all: one replica set, without members. *)
Example scenario_no_member :
  exists doc,
    Build (SetMembers Sample.rs0 0) = Returns doc None
    /\ AutomationConfig.Processes doc = []
    /\ AutomationConfig.ReplicaSets doc = [ReplicaSet.mk "rs0" [] "1"].
Proof. exists (Sample.built (SetMembers Sample.rs0 0)). repeat split; run. Qed.

(** A negative member count is not rejected: [make] panics. *)
Example scenario_negative_members :
  Build (SetMembers Sample.rs0 (-1)) = Panics.
Proof. run. Qed.

(** Without an enabler, the call of [Enable] panics. *)
Example scenario_no_enabler : Build (SetMembers NewBuilder 3) = Panics.
Proof. run. Qed.

(** At the largest [int], the increment wraps to the smallest. *)
Example scenario_last_version :
  AutomationConfig.Version (Sample.built Sample.rs0_last) = GoInt.min_int.
Proof. run. Qed.

(** ** The theorems at work on the scenarios *)

Lemma Build_version_rule_witness :
  (0 <= Builder.members Sample.rs0_tls
   /\ Builder.enabler Sample.rs0_tls = Some Sample.keepDisabled
   /\ Enable Sample.keepDisabled DisabledAuth = (true, None))
  /\ exists doc,
       Build Sample.rs0_tls = Returns doc None
       /\ AutomationConfig.Version (Build_currentAc Sample.rs0_tls true) = 5
       /\ AutomationConfig.Version doc = 6.
Proof.
  split; [repeat split; run|].
  destruct (Build_version_rule Sample.rs0_tls Sample.keepDisabled true
              (json_Marshal (Builder.previousAC Sample.rs0_tls)).1
              (json_Marshal (Build_currentAc Sample.rs0_tls true)).1)
    as (doc & HB & Hcur & Hne & _ & _ & Hsucc); [run..|].
  exists doc. split; [exact HB|]. split; [rewrite Hcur; run|].
  rewrite Hne by (vm_compute; discriminate).
  rewrite Hsucc by (vm_compute; split; [discriminate|reflexivity]).
  run.
Defined.

Lemma Build_idempotent_witness :
  Build Sample.rs0_tls = Returns (Sample.built Sample.rs0_tls) None
  /\ exists Z,
       Build (SetPreviousAutomationConfig Sample.rs0_tls
                (Sample.built Sample.rs0_tls)) = Returns Z None
       /\ AutomationConfig.Version Z
          = AutomationConfig.Version (Sample.built Sample.rs0_tls)
       /\ Z = Sample.built Sample.rs0_tls.
Proof.
  split; [run|].
  apply (Build_idempotent Sample.rs0_tls (Sample.built Sample.rs0_tls)).
  - intros ac v _. reflexivity.
  - run.
Defined.

Lemma Build_process_TLS_witness :
  tls_fully_enabled Sample.rs0_tls
  /\ Forall (fun p =>
               Net.SSL (Args26.Net (Process.Args26 p))
               = MongoDBSSL.mk "requireSSL" "/ca.pem" "/server.pem" true)
            (AutomationConfig.Processes (Sample.built Sample.rs0_tls)).
Proof.
  assert (tls_fully_enabled Sample.rs0_tls) as Htls
    by (repeat split; vm_compute; discriminate).
  split; [exact Htls|]. apply Forall_forall. intros p Hp.
  destruct (Build_process_TLS Sample.rs0_tls (Sample.built Sample.rs0_tls) p)
    as (_ & Hblock & _); [run|exact Hp|].
  exact (Hblock Htls).
Defined.

Lemma Build_cardinality_witness :
  0 <= 4
  /\ exists rs,
       AutomationConfig.ReplicaSets (Sample.built Sample.rs0_four) = [rs]
       /\ Z.of_nat (length (AutomationConfig.Processes
                              (Sample.built Sample.rs0_four))) = 4
       /\ Z.of_nat (length (ReplicaSet.Members rs)) = 4
       /\ ReplicaSetMember.Id <$> ReplicaSet.Members rs = [0; 1; 2; 3].
Proof.
  split; [lia|].
  destruct (Build_cardinality Sample.rs0_again 4 (Sample.built Sample.rs0_four))
    as (rs & Hrs & Hps & Hms & Hids & _); [lia|run|].
  exists rs. repeat split; assumption.
Defined.

Lemma Build_enabler_error_witness :
  Enable Sample.failing DisabledAuth
  = (false, Some "auth policy is misconfigured")
  /\ Build Sample.rs0_failing
     = Returns AutomationConfig_zero (Some "auth policy is misconfigured").
Proof.
  split; [reflexivity|].
  apply (Build_enabler_error Sample.rs0_failing Sample.failing false); run.
Defined.

Lemma Build_hostname_derivation_witness :
  exists p,
    AutomationConfig.Processes
      (Sample.built (SetDomain (SetName Sample.rs0 "foo") "example.com"))
      !! 2%nat = Some p
    /\ Process.HostName p = "foo-2.example.com"
    /\ Process.Name p = "foo-2".
Proof.
  exact (Build_hostname_derivation
           (SetDomain (SetName Sample.rs0 "foo") "example.com")
           (Sample.built (SetDomain (SetName Sample.rs0 "foo") "example.com"))
           2 ltac:(run) ltac:(vm_compute; split; [discriminate|reflexivity])).
Defined.

Lemma Build_agent_SSL_witness :
  tls_fully_enabled Sample.rs0_tls
  /\ SSL.ClientCertificateMode
       (AutomationConfig.SSL (Sample.built Sample.rs0_tls)) = "Optional"
  /\ SSL.CAFilePath (AutomationConfig.SSL (Sample.built Sample.rs0_tls))
     = "/ca.pem".
Proof.
  assert (tls_fully_enabled Sample.rs0_tls) as Htls
    by (repeat split; vm_compute; discriminate).
  split; [exact Htls|].
  destruct (Build_agent_SSL Sample.rs0_tls (Sample.built Sample.rs0_tls))
    as (Hmode & _ & Hpath & _); [run|].
  split; [exact Hmode|exact (Hpath Htls)].
Defined.

Lemma AddVersion_modules_witness :
  Forall (fun entry =>
            Forall (fun build => BuildConfig.Modules build <> None)
                   (MongoDbVersionConfig.Builds entry))
         (AutomationConfig.Versions Sample.rs0_doc).
Proof.
  destruct (AddVersion_modules NewBuilder (MongoDbVersionConfig.mk "" []))
    as [_ Hchain].
  apply Forall_forall. intros entry Hentry.
  apply Forall_forall. intros build Hbuild. revert entry build Hentry Hbuild.
  apply (Hchain
    [CallSetEnabler Sample.keepDisabled; CallSetTopology ReplicaSetTopology;
     CallSetMembers 3; CallSetName "rs0"; CallSetDomain "svc.local";
     CallSetFCV "4.2"; CallSetMongoDBVersion "4.2.6";
     CallAddVersion
       (MongoDbVersionConfig.mk "4.2.6"
          [BuildConfig.mk None; BuildConfig.mk (Some ["enterprise"])])]).
  run.
Defined.

Lemma Build_single_replica_set_witness :
  exists rs,
    AutomationConfig.ReplicaSets Sample.rs0_doc = [rs]
    /\ ReplicaSet.Id rs = "rs0"
    /\ ReplicaSet.Members rs
       = [ReplicaSetMember.mk 0 "rs0-0"; ReplicaSetMember.mk 1 "rs0-1";
          ReplicaSetMember.mk 2 "rs0-2"]
    /\ ReplicaSet.ProtocolVersion rs = "1".
Proof.
  destruct (Build_single_replica_set Sample.rs0 Sample.rs0_doc)
    as (rs & Hrs & Hid & Hms & _ & Hpv); [run|].
  exists rs. split; [exact Hrs|]. split; [exact Hid|].
  split; [rewrite Hms; run|exact Hpv].
Defined.

Lemma Build_previous_only_Version_witness :
  AutomationConfig.Version (Sample.built Sample.rs0_tls) = 6
  /\ AutomationConfig.Version (Sample.built Sample.rs0_last) = GoInt.min_int
  /\ AutomationConfig.Processes (Sample.built Sample.rs0_tls)
     = AutomationConfig.Processes (Sample.built Sample.rs0_last)
  /\ AutomationConfig.SSL (Sample.built Sample.rs0_tls)
     = AutomationConfig.SSL (Sample.built Sample.rs0_last).
Proof.
  split; [run|]. split; [run|].
  destruct (Build_previous_only_Version Sample.rs0_tls Sample.rs0_v5
              (AutomationConfig.with_Version Sample.rs0_doc GoInt.max_int)
              (Sample.built Sample.rs0_tls) (Sample.built Sample.rs0_last))
    as (Hps & _ & _ & _ & _ & Hssl); [run..|].
  split; [exact Hps|exact Hssl].
Defined.

(** ** The further properties at work *)

Lemma Build_success_not_zero_witness :
  Build Sample.rs0 = Returns Sample.rs0_doc None
  /\ Sample.rs0_doc <> AutomationConfig_zero.
Proof.
  split; [run|]. apply (Build_success_not_zero Sample.rs0). run.
Defined.

Lemma Build_without_SetEnabler_panics_witness :
  Forall (fun c => setter_of c <> OfSetEnabler)
         [CallSetMembers 3; CallSetName "rs0"; CallSetDomain "svc.local"]
  /\ Build (chain [CallSetMembers 3; CallSetName "rs0";
                   CallSetDomain "svc.local"]) = Panics.
Proof.
  assert (Forall (fun c => setter_of c <> OfSetEnabler)
            [CallSetMembers 3; CallSetName "rs0"; CallSetDomain "svc.local"])
    as Hcs by (repeat (constructor; [discriminate|]); constructor).
  split; [exact Hcs|]. exact (Build_without_SetEnabler_panics _ Hcs).
Defined.

Lemma Build_reads_only_witness :
  same_Build_inputs Sample.rs0 (SetTopology Sample.rs0 "ShardedCluster")
  /\ Build Sample.rs0 = Build (SetTopology Sample.rs0 "ShardedCluster").
Proof.
  assert (same_Build_inputs Sample.rs0
            (SetTopology Sample.rs0 "ShardedCluster")) as Hsame
    by (repeat split; reflexivity).
  split; [exact Hsame|]. exact (Build_reads_only _ _ Hsame).
Defined.

Lemma Build_partial_TLS_witness :
  ~ tls_fully_enabled (SetTLS Sample.rs0 "/ca.pem" "" "requireSSL")
  /\ Build (SetTLS Sample.rs0 "/ca.pem" "" "requireSSL")
     = Build (SetTLS (SetTLS Sample.rs0 "/ca.pem" "" "requireSSL") "" "" "").
Proof.
  assert (~ tls_fully_enabled (SetTLS Sample.rs0 "/ca.pem" "" "requireSSL"))
    as Hoff by (intros (_ & Hkey & _); by apply Hkey).
  split; [exact Hoff|]. exact (Build_partial_TLS _ Hoff).
Defined.

Lemma setters_commute_witness :
  setter_of (CallSetName "rs0") <> setter_of (CallSetMembers 3)
  /\ SetMembers (SetName NewBuilder "rs0") 3
     = SetName (SetMembers NewBuilder 3) "rs0".
Proof.
  split; [discriminate|].
  apply (setters_commute NewBuilder (CallSetName "rs0") (CallSetMembers 3)).
  discriminate.
Defined.

Lemma setter_last_call_wins_witness :
  setter_of (CallSetMembers 3) = setter_of (CallSetMembers 5)
  /\ SetMembers (SetMembers NewBuilder 3) 5 = SetMembers NewBuilder 5.
Proof.
  split; [reflexivity|].
  apply (setter_last_call_wins NewBuilder (CallSetMembers 3) (CallSetMembers 5));
    [reflexivity|discriminate].
Defined.

Lemma Build_previous_up_to_Marshal_witness :
  Sample.rs0_comma <> Sample.rs0_split
  /\ json_Marshal Sample.rs0_comma = json_Marshal Sample.rs0_split
  /\ Build (SetPreviousAutomationConfig Sample.rs0 Sample.rs0_comma)
     = Build (SetPreviousAutomationConfig Sample.rs0 Sample.rs0_split).
Proof.
  split; [vm_compute; discriminate|].
  assert (json_Marshal Sample.rs0_comma = json_Marshal Sample.rs0_split)
    as HM by run.
  split; [exact HM|].
  apply (Build_previous_up_to_Marshal Sample.rs0); [run|exact HM].
Defined.

Lemma Build_version_monotone_witness :
  GoInt.in_range (AutomationConfig.Version (Builder.previousAC Sample.rs0_tls))
  /\ 5 <= AutomationConfig.Version (Sample.built Sample.rs0_tls) <= 6.
Proof.
  assert (GoInt.in_range
            (AutomationConfig.Version (Builder.previousAC Sample.rs0_tls)))
    as Hr by (vm_compute; split; discriminate).
  split; [exact Hr|].
  destruct (Build_version_monotone Sample.rs0_tls (Sample.built Sample.rs0_tls))
    as (_ & Hmono & _); [run|exact Hr|].
  apply Hmono. run.
Defined.

Lemma Build_hostname_of_process_name_witness :
  Build_hostnames Sample.rs0 !! 1%nat = Some "rs0-1.svc.local".
Proof.
  exact (Build_hostname_of_process_name Sample.rs0 1
           ltac:(vm_compute; split; [discriminate|reflexivity])).
Defined.

Lemma Build_CA_file_consistent_witness :
  Forall (fun p =>
            MongoDBSSL.CAFile (Net.SSL (Args26.Net (Process.Args26 p)))
            = "/ca.pem")
         (AutomationConfig.Processes (Sample.built Sample.rs0_tls)).
Proof.
  apply Forall_forall. intros p Hp.
  rewrite (Build_CA_file_consistent Sample.rs0_tls
             (Sample.built Sample.rs0_tls) p ltac:(run) Hp).
  run.
Defined.

Lemma AddVersion_verbatim_witness :
  Forall modules_set [BuildConfig.mk (Some [])]
  /\ Builder.versions
       (AddVersion Sample.rs0
          (MongoDbVersionConfig.mk "4.4.0" [BuildConfig.mk (Some [])]))
     = Builder.versions Sample.rs0
       ++ [MongoDbVersionConfig.mk "4.4.0" [BuildConfig.mk (Some [])]].
Proof.
  assert (Forall modules_set [BuildConfig.mk (Some [])]) as Hset
    by (constructor; [discriminate|constructor]).
  split; [exact Hset|].
  exact (AddVersion_verbatim Sample.rs0
           (MongoDbVersionConfig.mk "4.4.0" [BuildConfig.mk (Some [])]) Hset).
Defined.

Lemma Shared_AddVersion_refines_witness :
  Builder.versions Sample.rs0
  = Shared.value Sample.heap <$> [Shared.mk_entry "4.2.6" (Some 0%nat)]
  /\ Shared.value
       (Shared.AddVersion Sample.heap [Shared.mk_entry "4.2.6" (Some 0%nat)]
          (Shared.mk_entry "4.2.6-ent" (Some 0%nat))).1
     <$> (Shared.AddVersion Sample.heap [Shared.mk_entry "4.2.6" (Some 0%nat)]
            (Shared.mk_entry "4.2.6-ent" (Some 0%nat))).2
     = Builder.versions
         (AddVersion Sample.rs0
            (Shared.value Sample.heap
               (Shared.mk_entry "4.2.6-ent" (Some 0%nat)))).
Proof.
  assert (Builder.versions Sample.rs0
          = Shared.value Sample.heap <$> [Shared.mk_entry "4.2.6" (Some 0%nat)])
    as Hb by run.
  split; [exact Hb|].
  apply (Shared_AddVersion_refines Sample.heap
           [Shared.mk_entry "4.2.6" (Some 0%nat)]
           (Shared.mk_entry "4.2.6-ent" (Some 0%nat)) Sample.rs0 Hb).
  apply (chain_catalog
           [CallSetEnabler Sample.keepDisabled;
            CallSetTopology ReplicaSetTopology;
            CallSetMembers 3; CallSetName "rs0"; CallSetDomain "svc.local";
            CallSetFCV "4.2"; CallSetMongoDBVersion "4.2.6";
            CallAddVersion
              (MongoDbVersionConfig.mk "4.2.6"
                 [BuildConfig.mk None; BuildConfig.mk (Some ["enterprise"])])]).
Defined.
